(** * SimpleCRM Pro backend: a shallow embedding of [main.py] and [schemas.py]

    The endpoints of [main.py] are modelled as pure functions from the state
    of the document store to a response and the next state.  Documents are
    Python dicts; the validation of request bodies follows the field tables
    of [schemas.py]. *)

From Stdlib Require Import List String Ascii ZArith NArith Bool Lia Floats.
From Stdlib Require Import DecimalString Permutation.
Import ListNotations.

Local Open Scope string_scope.
Local Open Scope list_scope.

Set Warnings "-register-all".

(** ** Values

    The values a JSON body or a stored document can hold.  [VFloat] is a
    binary64 number, as Python's [float] is; [VObjectId] is the identity the
    store assigns, a 12-byte number; [VDatetime] is a point in time. *)

Inductive value : Type :=
| VNone
| VBool (b : bool)
| VInt (z : Z)
| VFloat (f : float)
| VStr (s : string)
| VList (items : list value)
| VDict (entries : list (string * value))
| VObjectId (oid : N)
| VDatetime (millis : Z).

(** A Python [dict] with string keys: bindings in insertion order. *)
Definition dict := list (string * value).

Module Dict.

(** [d.get(k)]: the first binding of [k]. *)
Fixpoint get (k : string) (d : dict) : option value :=
  match d with
  | [] => None
  | (k', v) :: rest => if String.eqb k k' then Some v else get k rest
  end.

(** [d.get(k, default)]. *)
Definition get_default (k : string) (default : value) (d : dict) : value :=
  match get k d with
  | Some v => v
  | None => default
  end.

(** [d[k] = v]: overwrite the binding in place, or append a new one. *)
Fixpoint set (k : string) (v : value) (d : dict) : dict :=
  match d with
  | [] => [(k, v)]
  | (k', v') :: rest =>
      if String.eqb k k' then (k', v) :: rest else (k', v') :: set k v rest
  end.

(** [d.pop(k, None)], result dropped: no binding of [k] remains. *)
Definition pop (k : string) (d : dict) : dict :=
  filter (fun kv => negb (String.eqb k (fst kv))) d.

End Dict.

(** ** Text

    A Python [str] is a sequence of characters; a [string] here holds its
    UTF-8 bytes, so a character is a byte that starts one together with the
    bytes that continue it. *)

(** The byte continues a character (it is of the form [10xxxxxx]). *)
Definition continues (c : ascii) : bool :=
  let n := nat_of_ascii c in ((128 <=? n) && (n <? 192))%nat.

(** [len(s)]: the number of characters. *)
Fixpoint char_length (s : string) : nat :=
  match s with
  | EmptyString => O
  | String c rest => if continues c then char_length rest else S (char_length rest)
  end.

(** [s[:n]]: the first [n] characters. *)
Fixpoint slice_to (n : nat) (s : string) : string :=
  match s with
  | EmptyString => EmptyString
  | String c rest =>
      if continues c then String c (slice_to n rest)
      else match n with
           | O => EmptyString
           | S n' => String c (slice_to n' rest)
           end
  end.

(** ** Exceptions *)

Record exn : Type := Exn { exn_class : string; exn_text : string }.

(** A computation that returns or raises. *)
Inductive result (A : Type) : Type :=
| Ok (a : A)
| Raise (e : exn).

Arguments Ok {A} a.
Arguments Raise {A} e.

Definition bind {A B : Type} (m : result A) (k : A -> result B) : result B :=
  match m with
  | Ok a => k a
  | Raise e => Raise e
  end.

Declare Scope result_scope.
Delimit Scope result_scope with result.
Notation "x <- m ;; k" := (bind m (fun x => k))
  (at level 61, m at next level, right associativity) : result_scope.

(** ** Numbers *)

(** [float(n)] for a Python [int]: the nearest binary64 value, ties to even;
    an [OverflowError] when that is not finite. *)
Definition float_of_int (z : Z) : result float :=
  match binary_normalize prec emax z 0 false with
  | S754_infinity _ => Raise (Exn "OverflowError" "int too large to convert to float")
  | sf => Ok (SF2Prim sf)
  end.

(** A float counts as false exactly when it compares equal to zero (either
    sign); a NaN is true. *)
Definition float_is_zero (f : float) : bool := PrimFloat.eqb f 0%float.

(** Python truthiness. *)
Definition truthy (v : value) : bool :=
  match v with
  | VNone => false
  | VBool b => b
  | VInt z => negb (Z.eqb z 0)
  | VFloat f => negb (float_is_zero f)
  | VStr s => negb (String.eqb s "")
  | VList items => match items with [] => false | _ => true end
  | VDict entries => match entries with [] => false | _ => true end
  | VObjectId _ => true
  | VDatetime _ => true
  end.

(** [a or b]. *)
Definition py_or (a b : value) : value := if truthy a then a else b.

(** ** The Python and pydantic runtime

    What the program takes from its interpreter, from its libraries and from
    its process, and which this development does not look inside: the text
    [str] gives a value; [float] applied to something that is not a number
    (the parse of a string, or the [TypeError]); what [bool] gives a store
    handle that was set up (a Python object is true unless its class says
    otherwise, and the class of the handle is declared in [database.py]) and
    what its attribute [name] gives, on a database of a given name; the
    validators pydantic runs for the scalar annotations of [schemas.py], each
    returning the coerced value or refusing; and the environment
    variables. *)

Record runtime : Type := Runtime {
  py_str : value -> string;
  float_of_other : value -> result float;
  bool_of_handle : result bool;
  name_of_handle : string -> result string;
  as_str : value -> option string;
  as_float : value -> option float;
  as_email : value -> option string;
  as_datetime : value -> option Z;
  as_dict : value -> option dict;
  getenv : string -> option string;
}.

(** ** The document store *)

(** A database: named collections of documents in store order, and the next
    identity the store hands out. *)
Record store : Type := Store {
  name : string;
  collections : list (string * list dict);
  next_oid : N;
}.

(** The server behind the handle: reachable, or failing every operation with
    the error [e] while it keeps its data. *)
Inductive server : Type :=
| Up (st : store)
| Down (st : store) (e : exn).

(** The database the server holds. *)
Definition data (srv : server) : store :=
  match srv with Up st => st | Down st _ => st end.

(** The documents of the collection [coll]; a collection that was never
    written is empty. *)
Fixpoint lookup (coll : string) (cs : list (string * list dict)) : list dict :=
  match cs with
  | [] => []
  | (c, docs) :: rest => if String.eqb coll c then docs else lookup coll rest
  end.

Definition documents (st : store) (coll : string) : list dict :=
  lookup coll (collections st).

(** Appending [doc] to the collection [coll], created on its first write. *)
Fixpoint append_to (coll : string) (doc : dict) (cs : list (string * list dict))
  : list (string * list dict) :=
  match cs with
  | [] => [(coll, [doc])]
  | (c, docs) :: rest =>
      if String.eqb coll c then (c, docs ++ [doc]) :: rest
      else (c, docs) :: append_to coll doc rest
  end.

(** *** Queries

    The filters [main.py] builds: per key either a string to equal or a
    [$nin] list of strings.  A string condition holds of a field that is that
    string or an array containing it; [$nin] holds when the field is absent or
    none of the listed strings holds of it. *)
Inductive condition : Type :=
| Equals (s : string)
| Nin (excluded : list string).

Definition query := list (string * condition).

Definition is_string (s : string) (v : value) : bool :=
  match v with VStr t => String.eqb t s | _ => false end.

Definition holds_string (s : string) (v : value) : bool :=
  match v with
  | VList items => existsb (is_string s) items
  | _ => is_string s v
  end.

Definition satisfies (doc : dict) (c : string * condition) : bool :=
  match snd c, Dict.get (fst c) doc with
  | Equals s, Some v => holds_string s v
  | Equals _, None => false
  | Nin excluded, Some v => negb (existsb (fun s => holds_string s v) excluded)
  | Nin _, None => true
  end.

Definition matches (q : query) (doc : dict) : bool := forallb (satisfies doc) q.

(** *** The driver: [db.<coll>.count_documents(q)] and [db.<coll>.find(q)] *)

(** [db.<coll>]: an [AttributeError] on a handle that is [None]. *)
Definition attribute (db : option server) (coll : string) : result server :=
  match db with
  | Some srv => Ok srv
  | None =>
      Raise (Exn "AttributeError"
               ("'NoneType' object has no attribute '" ++ coll ++ "'"))
  end.

Definition find (db : option server) (coll : string) (q : query)
  : result (list dict) :=
  match attribute db coll with
  | Raise e => Raise e
  | Ok (Down _ e) => Raise e
  | Ok (Up st) => Ok (filter (matches q) (documents st coll))
  end.

Definition count_documents (db : option server) (coll : string) (q : query)
  : result Z :=
  match find db coll q with
  | Ok docs => Ok (Z.of_nat (List.length docs))
  | Raise e => Raise e
  end.

(** *** The storage gateway ([database.py]) *)

(** Modelled from the spec: the error [database.py] signals when the store is
    not configured; the spec names it and gives no text. *)
Definition StorageUnavailable : exn :=
  Exn "StorageUnavailable" "storage unavailable".

(** Modelled from the spec: the insertion behind [create], section 4.2: the
    store assigns the document a new identity, kept under [_id], and adds it
    to its collection. *)
Definition insert_one (st : store) (coll : string) (doc : dict) : store :=
  Store (name st)
        (append_to coll (("_id", VObjectId (next_oid st)) :: doc) (collections st))
        (N.succ (next_oid st)).

(** ** [schemas.py]

    A model class is the table of its fields: name, annotation, and the
    default of a field that may be left out. *)

Inductive annotation : Type :=
| TStr
| TFloat
| TEmailStr
| TDatetime
| TDict
| TListStr
| TLiteral (choices : list string)
| TOptional (t : annotation).

Record field : Type := Field {
  field_name : string;
  field_type : annotation;
  field_default : option value;
}.

Definition required (n : string) (t : annotation) : field := Field n t None.
Definition optional (n : string) (t : annotation) : field :=
  Field n (TOptional t) (Some VNone).

Definition Company : list field :=
  [ required "company_name" TStr;
    optional "address" TStr;
    optional "website" TStr;
    optional "notes" TStr ].

Definition funnel_stages : list string :=
  ["New"; "Contacted"; "Qualified"; "Proposal Sent"; "Negotiation"; "Won"; "Lost"].

Definition Contact : list field :=
  [ required "first_name" TStr;
    required "last_name" TStr;
    optional "email" TEmailStr;
    optional "phone" TStr;
    optional "company_id" TStr;
    Field "tags" TListStr (Some (VList []));
    optional "source" TStr;
    optional "notes" TStr;
    Field "funnel_stage" (TLiteral funnel_stages) (Some (VStr "New")) ].

Definition deal_stages : list string :=
  ["New"; "Contacted"; "Proposal Sent"; "Negotiation"; "Won"; "Lost"].

Definition Deal : list field :=
  [ required "deal_name" TStr;
    required "value" TFloat;
    Field "stage" (TLiteral deal_stages) (Some (VStr "New"));
    optional "contact_id" TStr;
    optional "company_id" TStr;
    optional "deadline" TStr;
    optional "notes" TStr ].

Definition Activity : list field :=
  [ required "entity_type" (TLiteral ["contact"; "deal"; "company"]);
    required "entity_id" TStr;
    required "type" (TLiteral ["deal_update"; "email_sent"; "status_change"; "note"]);
    required "message" TStr;
    Field "meta" TDict (Some (VDict [])) ].

Definition EmailCampaign : list field :=
  [ required "subject" TStr;
    required "html" TStr;
    required "segment" (TLiteral ["all_contacts"; "by_tag"; "by_company"; "funnel_stage"]);
    optional "tag" TStr;
    optional "company_id" TStr;
    optional "funnel_stage" TStr;
    optional "scheduled_at" TDatetime ].

(** The body of [POST /email/send], declared in [main.py]. *)
Definition SendEmailPayload_fields : list field :=
  [ required "to" TListStr;
    required "subject" TStr;
    required "html" TStr;
    optional "provider" TStr ].

Record SendEmailPayload : Type := {
  to : list string;
  subject : string;
  html : string;
  provider : option string;
}.

(** What a request handler ends with: the value it returns, the
    [HTTPException] it raises, the 422 the framework answers when the body
    does not validate (with the offending fields), or an exception nothing
    caught, which the framework answers with a plain 500. *)
Inductive response : Type :=
| Return (body : value)
| HTTPException (status_code : Z) (detail : string)
| RequestValidationError (fields : list string)
| Uncaught (e : exn).

(** The requests the application routes. *)
Inductive request : Type :=
| GET_root
| GET_test
| POST_contacts (body : value)
| POST_companies (body : value)
| POST_deals (body : value)
| POST_activities (body : value)
| POST_email_campaigns (body : value)
| GET_contacts (tag company_id stage : option string)
| GET_companies
| GET_deals (stage : option string)
| GET_activities (entity_type entity_id : option string)
| GET_stats_summary
| POST_email_send (body : value).

Section Program.

Variable R : runtime.

(** Modelled from the spec: [database.create_document], section 4.2
    [create(entityType, payload) -> identity]: one new document in the
    collection named [coll], holding the payload under a fresh identity,
    which is returned as a string; it fails only when the storage does. *)
Definition create_document (db : option server) (coll : string) (payload : dict)
  : result string * option server :=
  match db with
  | None => (Raise StorageUnavailable, db)
  | Some (Down _ e) => (Raise e, db)
  | Some (Up st) =>
      (Ok (py_str R (VObjectId (next_oid st))),
       Some (Up (insert_one st coll payload)))
  end.

(** Modelled from the spec: [database.get_documents], section 4.2
    [list(entityType, filter, limit=default)]: the documents of the
    collection that match every condition of the filter, in store order,
    at most [limit] of them when a limit is given.  The documents are
    copies: what a caller does to them stays outside the store. *)
Definition get_documents (db : option server) (coll : string) (q : query)
    (limit : option nat) : result (list dict) :=
  match db with
  | None => Raise StorageUnavailable
  | Some (Down _ e) => Raise e
  | Some (Up st) =>
      let docs := filter (matches q) (documents st coll) in
      Ok (match limit with Some n => firstn n docs | None => docs end)
  end.

(** ** Binding a request body to a model class *)

Fixpoint all_str (items : list value) : option (list value) :=
  match items with
  | [] => Some []
  | v :: rest =>
      match as_str R v, all_str rest with
      | Some s, Some rest' => Some (VStr s :: rest')
      | _, _ => None
      end
  end.

Fixpoint validate_type (t : annotation) (v : value) : option value :=
  match t with
  | TStr => option_map VStr (as_str R v)
  | TFloat => option_map VFloat (as_float R v)
  | TEmailStr => option_map VStr (as_email R v)
  | TDatetime => option_map VDatetime (as_datetime R v)
  | TDict => option_map VDict (as_dict R v)
  | TListStr =>
      match v with
      | VList items => option_map VList (all_str items)
      | _ => None
      end
  | TLiteral choices =>
      match v with
      | VStr s => if existsb (String.eqb s) choices then Some v else None
      | _ => None
      end
  | TOptional t' =>
      match v with
      | VNone => Some VNone
      | _ => validate_type t' v
      end
  end.

(** One field of the body: its validated value, or a refusal.  A field
    left out takes its default; without a default it is missing. *)
Definition validate_field (body : dict) (f : field) : option value :=
  match Dict.get (field_name f) body with
  | Some v => validate_type (field_type f) v
  | None => field_default f
  end.

(** All fields are checked; the errors name every field refused, and the
    model holds the declared fields only. *)
Fixpoint validate_fields (fields : list field) (body : dict)
  : list string * dict :=
  match fields with
  | [] => ([], [])
  | f :: rest =>
      let (errors, model) := validate_fields rest body in
      match validate_field body f with
      | Some v => (errors, (field_name f, v) :: model)
      | None => (field_name f :: errors, model)
      end
  end.

Definition validate (fields : list field) (body : value) : list string + dict :=
  match body with
  | VDict entries =>
      match validate_fields fields entries with
      | ([], model) => inr model
      | (errors, _) => inl errors
      end
  | _ => inl ["body"]
  end.

(** The framework calls the handler with the validated model, or answers
    422 without calling it. *)
Definition with_body (fields : list field)
    (handler : option server -> dict -> response * option server)
    (db : option server) (body : value) : response * option server :=
  match validate fields body with
  | inr model => handler db model
  | inl errors => (RequestValidationError errors, db)
  end.

(** The strings of a list (a validated [List[str]] holds nothing else). *)
Definition strings (items : list value) : list string :=
  flat_map (fun v => match v with VStr s => [s] | _ => [] end) items.

(** The validated body of [POST /email/send] as the object the handler
    reads its attributes from. *)
Definition SendEmailPayload_of (model : dict) : SendEmailPayload :=
  {| to := match Dict.get "to" model with
           | Some (VList items) => strings items
           | _ => []
           end;
     subject := match Dict.get "subject" model with Some (VStr s) => s | _ => "" end;
     html := match Dict.get "html" model with Some (VStr s) => s | _ => "" end;
     provider := match Dict.get "provider" model with
                 | Some (VStr s) => Some s
                 | _ => None
                 end |}.

(** ** [main.py] *)

Definition to_str_id (doc : dict) : dict :=
  if negb (truthy (VDict doc)) then doc
  else
    let doc1 := Dict.set "id" (VStr (py_str R (Dict.get_default "_id" VNone doc))) doc in
    Dict.pop "_id" doc1.

Definition read_root : response :=
  Return (VDict [("message", VStr "SimpleCRM Pro backend is running")]).

(** The outer [try] guards the test of the handle, the reading of the
    environment and of [db.name]: of these only reading the name is left to
    the runtime, and when it raises, the URL line is already written.  The
    inner [try] guards the listing of the collections.  Both slices count
    characters. *)
Definition test_database (db : option server) : response :=
  let response0 : dict :=
    [ ("backend", VStr "✅ Running");
      ("database", VStr "❌ Not Available");
      ("database_url", VNone);
      ("database_name", VNone);
      ("connection_status", VStr "Not Connected");
      ("collections", VList []) ] in
  match db with
  | Some srv =>
      let r1 := Dict.set "database" (VStr "✅ Available") response0 in
      let r2 := Dict.set "database_url"
                  (VStr (if truthy (match getenv R "DATABASE_URL" with
                                    | Some url => VStr url
                                    | None => VNone
                                    end)
                         then "✅ Set" else "❌ Not Set")) r1 in
      match name_of_handle R (name (data srv)) with
      | Ok database_name =>
          let r3 := Dict.set "database_name" (VStr database_name) r2 in
          let r4 := Dict.set "connection_status" (VStr "Connected") r3 in
          match srv with
          | Up st =>
              let collections := map fst (collections st) in
              let r5 := Dict.set "collections"
                          (VList (map VStr (firstn 20 collections))) r4 in
              Return (VDict (Dict.set "database" (VStr "✅ Connected & Working") r5))
          | Down _ e =>
              Return (VDict (Dict.set "database"
                               (VStr ("⚠️ Connected but Error: "
                                      ++ slice_to 80 (exn_text e)))
                               r4))
          end
      | Raise e =>
          Return (VDict (Dict.set "database"
                           (VStr ("❌ Error: " ++ slice_to 120 (exn_text e))) r2))
      end
  | None =>
      Return (VDict (Dict.set "database" (VStr "⚠️ Available but not initialized") response0))
  end.

(** *** Create *)

(** [new_id = create_document(coll, model); return {"id": new_id}]. *)
Definition create (coll : string) (db : option server) (model : dict)
  : response * option server :=
  match create_document db coll model with
  | (Ok new_id, db') => (Return (VDict [("id", VStr new_id)]), db')
  | (Raise e, db') => (Uncaught e, db')
  end.

Definition create_contact := create "contact".
Definition create_company := create "company".
Definition create_deal := create "deal".
Definition create_activity := create "activity".
Definition create_campaign := create "emailcampaign".

(** *** List *)

(** [if p: q[key] = p]: a parameter that is absent or empty adds nothing. *)
Definition filter_on (key : string) (p : option string) : query :=
  match p with
  | Some s => if truthy (VStr s) then [(key, Equals s)] else []
  | None => []
  end.

(** [return [to_str_id(d) for d in docs]]. *)
Definition listing (docs : result (list dict)) : response :=
  match docs with
  | Ok docs => Return (VList (map (fun d => VDict (to_str_id d)) docs))
  | Raise e => Uncaught e
  end.

Definition list_contacts (db : option server)
    (tag company_id stage : option string) : response :=
  let q := filter_on "tags" tag ++ filter_on "company_id" company_id
             ++ filter_on "funnel_stage" stage in
  listing (get_documents db "contact" q None).

Definition list_companies (db : option server) : response :=
  listing (get_documents db "company" [] None).

Definition list_deals (db : option server) (stage : option string) : response :=
  let q := filter_on "stage" stage in
  listing (get_documents db "deal" q None).

Definition list_activities (db : option server)
    (entity_type entity_id : option string) : response :=
  let q := filter_on "entity_type" entity_type ++ filter_on "entity_id" entity_id in
  listing (get_documents db "activity" q (Some 200%nat)).

(** *** Stats *)

(** [float(x)]. *)
Definition py_float (v : value) : result float :=
  match v with
  | VFloat f => Ok f
  | VInt z => float_of_int z
  | VBool b => Ok (if b then 1%float else 0%float)
  | _ => float_of_other R v
  end.

(** The loop [for d in ...: pipeline_value += float(d.get("value", 0) or 0)]. *)
Fixpoint add_values (deals : list dict) (pipeline_value : float) : result float :=
  match deals with
  | [] => Ok pipeline_value
  | d :: rest =>
      match py_float (py_or (Dict.get_default "value" (VInt 0) d) (VInt 0)) with
      | Ok x => add_values rest (pipeline_value + x)%float
      | Raise e => Raise e
      end
  end.

(** The truth value of the handle in [... if db else 0]: [None] is false. *)
Definition handle_truthy (db : option server) : result bool :=
  match db with
  | Some _ => bool_of_handle R
  | None => Ok false
  end.

(** [db.<coll>.count_documents(q) if db else 0]. *)
Definition count_if_db (db : option server) (coll : string) (q : query) : result Z :=
  match handle_truthy db with
  | Ok true => count_documents db coll q
  | Ok false => Ok 0%Z
  | Raise e => Raise e
  end.

Definition stats_summary (db : option server) : response :=
  let body :=
    (total_contacts <- count_if_db db "contact" [] ;;
     active_deals <- count_if_db db "deal" [("stage", Nin ["Lost"])] ;;
     deals <- find db "deal" [("stage", Nin ["Won"; "Lost"])] ;;
     pipeline_value <- add_values deals 0%float ;;
     won_count <- count_if_db db "deal" [("stage", Equals "Won")] ;;
     created_last_30_days <- count_if_db db "contact" [] ;;
     Ok [ ("total_contacts", VInt total_contacts);
          ("active_deals", VInt active_deals);
          ("pipeline_value", VFloat pipeline_value);
          ("won_deals", VInt won_count);
          ("created_last_30_days", VInt created_last_30_days) ])%result in
  match body with
  | Ok body => Return (VDict body)
  | Raise e => HTTPException 500 (exn_text e)
  end.

(** *** Email *)

(** [payload.provider or "mock"]. *)
Definition provider_or_mock (payload : SendEmailPayload) : string :=
  match provider payload with
  | Some p => if truthy (VStr p) then p else "mock"
  | None => "mock"
  end.

Definition email_activity (payload : SendEmailPayload) (addr : string) : dict :=
  [ ("entity_type", VStr "contact");
    ("entity_id", VStr addr);
    ("type", VStr "email_sent");
    ("message", VStr ("Email sent: " ++ subject payload));
    ("meta", VDict [("provider", VStr (provider_or_mock payload))]) ].

(** The loop [for addr in payload.to: create_document("activity", ...)]. *)
Fixpoint log_recipients (payload : SendEmailPayload) (addrs : list string)
    (db : option server) : result unit * option server :=
  match addrs with
  | [] => (Ok tt, db)
  | addr :: rest =>
      match create_document db "activity" (email_activity payload addr) with
      | (Ok _, db') => log_recipients payload rest db'
      | (Raise e, db') => (Raise e, db')
      end
  end.

Definition send_email (db : option server) (payload : SendEmailPayload)
  : response * option server :=
  match log_recipients payload (to payload) db with
  | (Ok _, db') =>
      (Return (VDict [ ("status", VStr "queued");
                       ("provider", VStr (provider_or_mock payload));
                       ("sent", VInt (Z.of_nat (List.length (to payload)))) ]),
       db')
  | (Raise e, db') => (Uncaught e, db')
  end.

(** ** Routing *)

Definition handle (db : option server) (req : request) : response * option server :=
  match req with
  | GET_root => (read_root, db)
  | GET_test => (test_database db, db)
  | POST_contacts body => with_body Contact create_contact db body
  | POST_companies body => with_body Company create_company db body
  | POST_deals body => with_body Deal create_deal db body
  | POST_activities body => with_body Activity create_activity db body
  | POST_email_campaigns body => with_body EmailCampaign create_campaign db body
  | GET_contacts tag company_id stage => (list_contacts db tag company_id stage, db)
  | GET_companies => (list_companies db, db)
  | GET_deals stage => (list_deals db stage, db)
  | GET_activities entity_type entity_id =>
      (list_activities db entity_type entity_id, db)
  | GET_stats_summary => (stats_summary db, db)
  | POST_email_send body =>
      with_body SendEmailPayload_fields
        (fun db model => send_email db (SendEmailPayload_of model)) db body
  end.

(** The store after a sequence of requests. *)
Definition serve (db : option server) (reqs : list request) : option server :=
  fold_left (fun db req => snd (handle db req)) reqs db.

End Program.

(** ** A runtime to evaluate the program with

    One reading of the runtime, for running the program on examples: [str]
    prints an identity as its 24 hexadecimal digits; a store handle is true
    and has the name of its database;
    a body value is accepted for [str] when it is a string, for [dict] when
    it is an object, and for [float] when it is a number or a string holding
    a decimal literal, as pydantic's default (lax) mode does.  Floats and
    containers are not printed, e-mail addresses are only checked for an
    [@], and of the timestamps only whole seconds are read: the examples
    need none of them. *)

Module Sample.

Definition digit (c : ascii) : option Z :=
  let n := Z.of_nat (nat_of_ascii c) in
  if ((48 <=? n) && (n <=? 57))%Z then Some (n - 48)%Z else None.

(** A run of digits continuing the number [acc]: the number, how many
    digits were read, and the rest of the text. *)
Fixpoint digits (s : string) (acc : Z) (n : Z) : Z * Z * string :=
  match s with
  | String c rest =>
      match digit c with
      | Some d => digits rest (10 * acc + d)%Z (n + 1)%Z
      | None => (acc, n, s)
      end
  | EmptyString => (acc, n, s)
  end.

Definition sign (s : string) : bool * string :=
  match s with
  | String "-" rest => (true, rest)
  | String "+" rest => (false, rest)
  | _ => (false, s)
  end.

(** A decimal literal as sign, mantissa [m] and exponent [e]: the number
    [m * 10 ^ e]. *)
Definition decimal (s : string) : option (bool * Z * Z) :=
  let (neg, s1) := sign s in
  let '(i, ni, s2) := digits s1 0 0 in
  let '(m, nf, s3) :=
    match s2 with
    | String "." rest => digits rest i 0
    | _ => (i, 0%Z, s2)
    end in
  if (ni + nf =? 0)%Z then None
  else
    match s3 with
    | EmptyString => Some (neg, m, (- nf)%Z)
    | String c rest =>
        if (Ascii.eqb c "e" || Ascii.eqb c "E")%bool then
          let (eneg, s4) := sign rest in
          let '(x, nx, s5) := digits s4 0 0 in
          match s5 with
          | EmptyString =>
              if (nx =? 0)%Z then None
              else Some (neg, m, ((if eneg then - x else x) - nf)%Z)
          | _ => None
          end
        else None
    end.

(** The binary64 number nearest to [m * 10 ^ e], ties to even.  For a
    negative exponent the quotient is taken with 64 bits to spare and a
    sticky last bit, which rounds as the exact quotient does. *)
Definition nearest (neg : bool) (m e : Z) : float :=
  let signed (x : Z) := if neg then (- x)%Z else x in
  if (0 <=? e)%Z then
    SF2Prim (binary_normalize prec emax (signed (m * 10 ^ e)%Z) 0 neg)
  else
    let d := (10 ^ (- e))%Z in
    let s := (Z.log2 d + 64)%Z in
    let q := ((m * 2 ^ s) / d)%Z in
    let sticky := if ((m * 2 ^ s) mod d =? 0)%Z then 0%Z else 1%Z in
    SF2Prim (binary_normalize prec emax (signed (2 * q + sticky)%Z) (- (s + 1)) neg).

Definition decimal_literal (s : string) : option float :=
  match decimal s with
  | Some (neg, m, e) => Some (nearest neg m e)
  | None => None
  end.

Definition hex_digit (n : N) : ascii :=
  match n with
  | 0 => "0" | 1 => "1" | 2 => "2" | 3 => "3" | 4 => "4" | 5 => "5"
  | 6 => "6" | 7 => "7" | 8 => "8" | 9 => "9" | 10 => "a" | 11 => "b"
  | 12 => "c" | 13 => "d" | 14 => "e" | _ => "f"
  end%N%char.

Fixpoint hex (width : nat) (n : N) (tail : string) : string :=
  match width with
  | O => tail
  | S w => hex w (n / 16)%N (String (hex_digit (n mod 16)%N) tail)
  end.

Definition str (v : value) : string :=
  match v with
  | VNone => "None"
  | VBool b => if b then "True" else "False"
  | VInt z => NilZero.string_of_int (Z.to_int z)
  | VStr s => s
  | VObjectId oid => hex 24 oid ""
  | VFloat _ | VList _ | VDict _ | VDatetime _ => "..."
  end.

Definition float_of_other (v : value) : result float :=
  match v with
  | VStr s =>
      match decimal_literal s with
      | Some f => Ok f
      | None => Raise (Exn "ValueError" ("could not convert string to float: '" ++ s ++ "'"))
      end
  | _ => Raise (Exn "TypeError" "float() argument must be a string or a real number")
  end.

Definition as_str (v : value) : option string :=
  match v with VStr s => Some s | _ => None end.

Definition as_float (v : value) : option float :=
  match v with
  | VFloat f => Some f
  | VInt z => match float_of_int z with Ok f => Some f | Raise _ => None end
  | VStr s => decimal_literal s
  | _ => None
  end.

Fixpoint has_at (s : string) : bool :=
  match s with
  | String c rest => (Ascii.eqb c "@" || has_at rest)%bool
  | EmptyString => false
  end.

Definition as_email (v : value) : option string :=
  match v with
  | VStr s => if has_at s then Some s else None
  | _ => None
  end.

Definition as_datetime (v : value) : option Z :=
  match v with VInt seconds => Some (1000 * seconds)%Z | _ => None end.

Definition as_dict (v : value) : option dict :=
  match v with VDict entries => Some entries | _ => None end.

Definition runtime : runtime :=
  Runtime str float_of_other (Ok true) Ok as_str as_float as_email as_datetime
          as_dict (fun _ => None).

Definition empty : store := Store "crm" [] 0.

End Sample.

(** * The vocabulary of the properties *)

(** ** Statistics *)

(** [0.0] and [-0.0] are different floats that compare equal.  [x or 0]
    replaces either by the integer [0], so the sum the program computes and
    the sum of the stored values can differ in the sign of a zero, and in
    nothing else: two floats are the same number when they are one float or
    are both zero. *)
Definition same_number (a b : float) : Prop :=
  a = b \/ (float_is_zero a = true /\ float_is_zero b = true).

(** The float is a zero, of either sign. *)
Definition zero_sf (x : spec_float) : Prop := exists s, x = S754_zero s.

(** The deal's [stage] is the string [s]. *)
Definition stage_is (s : string) (deal : dict) : bool :=
  match Dict.get "stage" deal with
  | Some v => is_string s v
  | None => false
  end.

(** The deal's [stage], when it has one, is not an array (a query on an
    array field asks about its elements). *)
Definition scalar_stage (deal : dict) : bool :=
  match Dict.get "stage" deal with
  | Some (VList _) => false
  | _ => true
  end.

(** A stored number as a float. *)
Definition number_of (v : value) : option float :=
  match v with
  | VFloat f => Some f
  | VInt z => match float_of_int z with Ok f => Some f | Raise _ => None end
  | _ => None
  end.

(** The deal's [value] is missing (absent or null) or a number. *)
Definition numeric_value (deal : dict) : bool :=
  match Dict.get "value" deal with
  | None | Some VNone => true
  | Some v => match number_of v with Some _ => true | None => false end
  end.

(** The deal's [value], a missing one counting as 0. *)
Definition amount (deal : dict) : float :=
  match Dict.get "value" deal with
  | Some v => match number_of v with Some f => f | None => 0%float end
  | None => 0%float
  end.

(** The sum of a list of floats, taken from the left. *)
Definition total (xs : list float) : float := fold_left PrimFloat.add xs 0%float.

(** The number of documents that satisfy [p]. *)
Definition count (p : dict -> bool) (docs : list dict) : Z :=
  Z.of_nat (List.length (filter p docs)).

(** The deal is still in the pipeline: neither won nor lost. *)
Definition in_pipeline (deal : dict) : bool :=
  negb (stage_is "Won" deal) && negb (stage_is "Lost" deal).

(** A deal as [POST /deals] stores it: its stage is one of the six declared
    strings and its value is a float. *)
Definition valid_deal (deal : dict) : Prop :=
  (exists s, In s deal_stages /\ Dict.get "stage" deal = Some (VStr s))
  /\ exists f, Dict.get "value" deal = Some (VFloat f).

(** Every deal the database holds is a valid one. *)
Definition deals_valid (db : option server) : Prop :=
  match db with
  | Some srv => Forall valid_deal (documents (data srv) "deal")
  | None => True
  end.

(** ** E-mail *)

(** The activity document that records a message to [addr]. *)
Definition logged (addr : string) (doc : dict) : Prop :=
  Dict.get "entity_type" doc = Some (VStr "contact")
  /\ Dict.get "entity_id" doc = Some (VStr addr)
  /\ Dict.get "type" doc = Some (VStr "email_sent").

(** The provider in the words of the spec: the given one, "mock" when none
    is given. *)
Definition given_or_mock (payload : SendEmailPayload) : string :=
  match provider payload with
  | Some p => p
  | None => "mock"
  end.

(** ** The store across requests *)

(** The requests that only read: the probes, the listings, the statistics. *)
Definition is_read (req : request) : bool :=
  match req with
  | GET_root | GET_test | GET_contacts _ _ _ | GET_companies | GET_deals _
  | GET_activities _ _ | GET_stats_summary => true
  | POST_contacts _ | POST_companies _ | POST_deals _ | POST_activities _
  | POST_email_campaigns _ | POST_email_send _ => false
  end.

(** [db'] keeps the documents of [db]: every collection starts with the
    documents it had, unchanged and in their order; anything else comes
    after them. *)
Definition kept (db db' : option server) : Prop :=
  match db, db' with
  | None, None => True
  | Some (Down st e), Some (Down st' e') => st = st' /\ e = e'
  | Some (Up st), Some (Up st') =>
      forall coll, exists new, documents st' coll = documents st coll ++ new
  | _, _ => False
  end.

(** ** Validation *)

(** The model class a creating request binds its body to, and the body. *)
Definition creation (req : request) : option (list field * value) :=
  match req with
  | POST_contacts body => Some (Contact, body)
  | POST_companies body => Some (Company, body)
  | POST_deals body => Some (Deal, body)
  | POST_activities body => Some (Activity, body)
  | POST_email_campaigns body => Some (EmailCampaign, body)
  | POST_email_send body => Some (SendEmailPayload_fields, body)
  | _ => None
  end.

(** What is wrong with the field [f] in a body: it is required and left out,
    it is an enumeration and the value is none of its strings, or the
    validator of its type refuses the value. *)
Inductive defect (R : runtime) (body : dict) (f : field) : Prop :=
| omitted :
    Dict.get (field_name f) body = None -> field_default f = None ->
    defect R body f
| outside_enumeration (choices : list string) (v : value) :
    field_type f = TLiteral choices -> Dict.get (field_name f) body = Some v ->
    (forall s, In s choices -> v <> VStr s) ->
    defect R body f
| refused (v : value) :
    Dict.get (field_name f) body = Some v ->
    validate_type R (field_type f) v = None ->
    defect R body f.

(** A body is invalid when it is not an object or a declared field has a
    defect. *)
Definition invalid (R : runtime) (fields : list field) (body : value) : Prop :=
  match body with
  | VDict entries => exists f, In f fields /\ defect R entries f
  | _ => True
  end.

(** The JSON types, and the one an annotation of [schemas.py] asks for: "a
    wrong primitive type", in the words of the spec, read literally. *)
Inductive json_type : Type := JNull | JBoolean | JNumber | JString | JArray | JObject.

Definition json_type_of (v : value) : option json_type :=
  match v with
  | VNone => Some JNull
  | VBool _ => Some JBoolean
  | VInt _ | VFloat _ => Some JNumber
  | VStr _ => Some JString
  | VList _ => Some JArray
  | VDict _ => Some JObject
  | VObjectId _ | VDatetime _ => None
  end.

Fixpoint declared_type (t : annotation) : json_type :=
  match t with
  | TStr | TEmailStr | TDatetime | TLiteral _ => JString
  | TFloat => JNumber
  | TDict => JObject
  | TListStr => JArray
  | TOptional t' => declared_type t'
  end.

(** The value is of another JSON type than the annotation's (and is not
    null, which stands for a field left empty). *)
Definition wrong_primitive_type (t : annotation) (v : value) : Prop :=
  json_type_of v <> Some (declared_type t) /\ json_type_of v <> Some JNull.

(** * Examples *)

(** A deal as the store holds it. *)
Definition stored_deal : dict :=
  [ ("_id", VObjectId 255); ("deal_name", VStr "Renewal");
    ("value", VFloat 100); ("stage", VStr "New") ].

(** The deals of the example in the spec. *)
Definition three_deals : store :=
  Store "crm"
    [ ("deal",
       [ [("_id", VObjectId 0); ("value", VFloat 100); ("stage", VStr "New")];
         [("_id", VObjectId 1); ("value", VFloat 50); ("stage", VStr "Won")];
         [("_id", VObjectId 2); ("value", VFloat 25); ("stage", VStr "Negotiation")] ]) ]
    3.

Definition two_contacts : store :=
  Store "crm"
    [ ("contact",
       [ [("_id", VObjectId 0); ("first_name", VStr "Ada"); ("last_name", VStr "Lovelace")];
         [("_id", VObjectId 1); ("first_name", VStr "Alan"); ("last_name", VStr "Turing")] ]) ]
    2.

(** A message whose provider is given as the empty string. *)
Definition empty_provider : SendEmailPayload :=
  {| to := ["a@x.com"]; subject := "Hello"; html := "<p>Hello</p>";
     provider := Some "" |}.

(** The message of the example in the spec. *)
Definition two_recipients : SendEmailPayload :=
  {| to := ["a@x.com"; "b@x.com"]; subject := "Hello"; html := "<p>Hello</p>";
     provider := None |}.

(** What the driver reports when no server answers. *)
Definition outage : exn :=
  Exn "ServerSelectionTimeoutError"
      ("localhost:27017: [Errno 111] Connection refused (configured timeouts: "
       ++ "socketTimeoutMS: 20000.0ms, connectTimeoutMS: 20000.0ms), Timeout: 30s, "
       ++ "Topology Description: <TopologyDescription id: 65f0c0ffee1a2b3c4d5e6f70, "
       ++ "topology_type: Unknown, servers: [<ServerDescription ('localhost', 27017) "
       ++ "server_type: Unknown, rtt: None>]>").

(** A deal is created, the deals are listed, the statistics are read, a
    message is sent, and a deal without a value is refused. *)
Definition busy_day : list request :=
  [ POST_deals (VDict [("deal_name", VStr "Upsell"); ("value", VInt 10)]);
    GET_deals (Some "New");
    GET_stats_summary;
    POST_email_send (VDict [ ("to", VList [VStr "a@x.com"]); ("subject", VStr "Hello");
                             ("html", VStr "<p>Hello</p>") ]);
    POST_deals (VDict [("deal_name", VStr "No value")]) ].

(** A deal whose [value] is sent as a string. *)
Definition numeric_string_deal : value :=
  VDict [("deal_name", VStr "Renewal"); ("value", VStr "12.5")].

(** A deal in a stage that does not exist. *)
Definition archived_deal : dict :=
  [("deal_name", VStr "Renewal"); ("value", VFloat 100); ("stage", VStr "Archived")].

(** * Further vocabulary and examples *)

(** The requests that list a collection. *)
Definition is_listing (req : request) : bool :=
  match req with
  | GET_contacts _ _ _ | GET_companies | GET_deals _ | GET_activities _ _ => true
  | _ => false
  end.

(** A document as a list endpoint shows it: it has no [_id], and unless it
    is empty it has an [id] that is a string. *)
Definition shown (item : value) : Prop :=
  exists d, item = VDict d /\ Dict.get "_id" d = None
    /\ (d = [] \/ exists s, Dict.get "id" d = Some (VStr s)).

(** The request that lists the collection a creating request writes to
    (activities are listed 200 at most, and campaigns are not listed). *)
Definition listed_by (req : request) : option request :=
  match req with
  | POST_contacts _ => Some (GET_contacts None None None)
  | POST_companies _ => Some GET_companies
  | POST_deals _ => Some (GET_deals None)
  | _ => None
  end.

(** What a query parameter asks of a document: nothing when it is absent or
    empty; otherwise that the field [key] is that string, or an array that
    holds it. *)
Definition asks (key : string) (p : option string) (doc : dict) : bool :=
  match p with
  | Some s =>
      if String.eqb s "" then true
      else match Dict.get key doc with
           | Some v => holds_string s v
           | None => false
           end
  | None => true
  end.

(** A deal to create. *)
Definition upsell : value :=
  VDict [("deal_name", VStr "Upsell"); ("value", VInt 10); ("stage", VStr "Won")].

(** Contacts with tags, companies and stages. *)
Definition tagged_contacts : store :=
  Store "crm"
    [ ("contact",
       [ [ ("_id", VObjectId 0); ("first_name", VStr "Ada");
           ("tags", VList [VStr "vip"; VStr "press"]); ("company_id", VStr "c1");
           ("funnel_stage", VStr "New") ];
         [ ("_id", VObjectId 1); ("first_name", VStr "Alan");
           ("tags", VList [VStr "vip"]); ("company_id", VStr "c2");
           ("funnel_stage", VStr "Won") ];
         [ ("_id", VObjectId 2); ("first_name", VStr "Grace");
           ("tags", VList []); ("company_id", VStr "c1");
           ("funnel_stage", VStr "Won") ] ]) ]
    3.

(** A message to nobody. *)
Definition no_recipients : SendEmailPayload :=
  {| to := []; subject := "Hello"; html := "<p>Hello</p>"; provider := Some "resend" |}.

(** Deals of which one, still open, holds a value that is no number. *)
Definition bad_value_deals : store :=
  Store "crm"
    [ ("deal",
       [ [("_id", VObjectId 0); ("value", VFloat 100); ("stage", VStr "New")];
         [("_id", VObjectId 1); ("value", VStr "a lot"); ("stage", VStr "Contacted")];
         [("_id", VObjectId 2); ("value", VFloat 25); ("stage", VStr "Negotiation")] ]) ]
    3.

(** The number of deals still in the pipeline. *)
Definition open_deals (st : store) : Z := count in_pipeline (documents st "deal").

(** The keys of the diagnostic of [GET /test], in order. *)
Definition diagnostic_keys : list string :=
  ["backend"; "database"; "database_url"; "database_name"; "connection_status";
   "collections"].

(** An error whose text is a hundred times the letter e with an acute
    accent: a hundred characters, two hundred bytes of UTF-8. *)
Definition accented : exn :=
  Exn "OperationFailure" (String.concat "" (repeat "é" 100)).

(** What pymongo raises when a database handle is tested for truth. *)
Definition no_truth_value : exn :=
  Exn "NotImplementedError"
      ("Database objects do not implement truth value testing or bool(). "
       ++ "Please compare with None instead: database is not None").

(** A runtime like [Sample.runtime] in which testing the handle for truth
    raises [e]. *)
Definition with_untestable_handle (e : exn) : runtime :=
  Runtime Sample.str Sample.float_of_other (Raise e) Ok Sample.as_str
          Sample.as_float Sample.as_email Sample.as_datetime Sample.as_dict
          (fun _ => None).

(** A runtime like [Sample.runtime] in which reading the name of the handle
    raises [e]. *)
Definition with_nameless_handle (e : exn) : runtime :=
  Runtime Sample.str Sample.float_of_other (Ok true) (fun _ => Raise e) Sample.as_str
          Sample.as_float Sample.as_email Sample.as_datetime Sample.as_dict
          (fun _ => None).

(** A deal that leaves its stage to the default. *)
Definition deal_without_stage : dict :=
  [("deal_name", VStr "Renewal"); ("value", VInt 100); ("probability", VFloat 0.5)].


(** A runtime like [Sample.runtime] whose [DATABASE_URL] is set to [url]. *)
Definition with_database_url (url : string) : runtime :=
  Runtime Sample.str Sample.float_of_other (Ok true) Ok Sample.as_str Sample.as_float
          Sample.as_email Sample.as_datetime Sample.as_dict
          (fun key => if String.eqb key "DATABASE_URL" then Some url else None).

(** The three deals of the spec's example under other names and identities,
    the deal that was won now worth nothing that [float] could read. *)
Definition three_other_deals : store :=
  Store "sales"
    [ ("deal",
       [ [("_id", VObjectId 7); ("stage", VStr "New"); ("value", VFloat 100)];
         [("_id", VObjectId 8); ("stage", VStr "Won"); ("value", VStr "a lot")];
         [("_id", VObjectId 9); ("stage", VStr "Negotiation"); ("value", VFloat 25)] ]) ]
    10.

(** * Properties *)

(** ** Dictionaries *)

Module DictFacts.

Lemma get_set_same (k : string) (v : value) (d : dict) :
  Dict.get k (Dict.set k v d) = Some v.
Proof.
  induction d as [|[k' v'] rest IH]; simpl.
  - now rewrite String.eqb_refl.
  - destruct (String.eqb k k') eqn:E; simpl; rewrite E; auto.
Qed.

Lemma get_set_other (k k' : string) (v : value) (d : dict) :
  k <> k' -> Dict.get k (Dict.set k' v d) = Dict.get k d.
Proof.
  intros Hne. induction d as [|[k0 v0] rest IH]; simpl.
  - destruct (String.eqb_spec k k'); congruence.
  - destruct (String.eqb_spec k' k0) as [->|Hk0]; simpl.
    + destruct (String.eqb_spec k k0); congruence.
    + destruct (String.eqb_spec k k0); auto.
Qed.

Lemma get_pop_same (k : string) (d : dict) : Dict.get k (Dict.pop k d) = None.
Proof.
  unfold Dict.pop. induction d as [|[k' v'] rest IH]; simpl; auto.
  destruct (String.eqb k k') eqn:E; simpl; auto. now rewrite E.
Qed.

Lemma get_pop_other (k k' : string) (d : dict) :
  k <> k' -> Dict.get k (Dict.pop k' d) = Dict.get k d.
Proof.
  intros Hne. unfold Dict.pop. induction d as [|[k0 v0] rest IH]; simpl; auto.
  destruct (String.eqb_spec k' k0) as [->|Hk0]; simpl.
  - destruct (String.eqb_spec k k0); congruence.
  - destruct (String.eqb_spec k k0); auto.
Qed.

End DictFacts.

(** ** Reshaping a stored document *)

(** C7.  [to_str_id] applied to a stored document (one that carries its
    identity under [_id]) yields a document whose [id] is the string form of
    that identity and which has no [_id] any more, while every key other than
    these two is bound exactly as in the stored document. *)
Theorem to_str_id_renames_identity (R : runtime) (doc : dict) (oid : value) :
  Dict.get "_id" doc = Some oid ->
  Dict.get "id" (to_str_id R doc) = Some (VStr (py_str R oid))
  /\ Dict.get "_id" (to_str_id R doc) = None
  /\ forall k, k <> "_id" -> k <> "id" ->
       Dict.get k (to_str_id R doc) = Dict.get k doc.
Proof.
  intros Hid. unfold to_str_id.
  destruct doc as [|kv rest]; [discriminate|].
  cbn [truthy negb]. unfold Dict.get_default. rewrite Hid.
  repeat split.
  - rewrite DictFacts.get_pop_other by discriminate.
    apply DictFacts.get_set_same.
  - apply DictFacts.get_pop_same.
  - intros k H1 H2.
    rewrite DictFacts.get_pop_other by assumption.
    now apply DictFacts.get_set_other.
Qed.

(** C7 on a stored deal. *)
Lemma to_str_id_renames_identity_witness :
  Dict.get "_id" stored_deal = Some (VObjectId 255)
  /\ to_str_id Sample.runtime stored_deal =
       [ ("deal_name", VStr "Renewal"); ("value", VFloat 100);
         ("stage", VStr "New"); ("id", VStr "0000000000000000000000ff") ]
  /\ Dict.get "id" (to_str_id Sample.runtime stored_deal)
       = Some (VStr "0000000000000000000000ff").
Proof.
  split; [reflexivity|]. split; [reflexivity|].
  exact (proj1 (to_str_id_renames_identity Sample.runtime stored_deal
                  (VObjectId 255) eq_refl)).
Defined.

(** ** Listing *)

Lemma filter_on_empty (key : string) : filter_on key (Some "") = filter_on key None.
Proof. reflexivity. Qed.

(** C10.  On every list endpoint a query parameter given as the empty string
    adds no condition to the filter and the request is answered exactly as
    the request without that parameter. *)
Theorem empty_parameter_is_absent (R : runtime) (db : option server)
    (p1 p2 : option string) :
  (filter_on "tags" (Some "") = [] /\ filter_on "company_id" (Some "") = []
   /\ filter_on "funnel_stage" (Some "") = [] /\ filter_on "stage" (Some "") = []
   /\ filter_on "entity_type" (Some "") = [] /\ filter_on "entity_id" (Some "") = [])
  /\ handle R db (GET_contacts (Some "") p1 p2) = handle R db (GET_contacts None p1 p2)
  /\ handle R db (GET_contacts p1 (Some "") p2) = handle R db (GET_contacts p1 None p2)
  /\ handle R db (GET_contacts p1 p2 (Some "")) = handle R db (GET_contacts p1 p2 None)
  /\ handle R db (GET_deals (Some "")) = handle R db (GET_deals None)
  /\ handle R db (GET_activities (Some "") p1) = handle R db (GET_activities None p1)
  /\ handle R db (GET_activities p1 (Some "")) = handle R db (GET_activities p1 None).
Proof.
  repeat split; cbn [handle]; f_equal;
    unfold list_contacts, list_deals, list_activities;
    now rewrite ?filter_on_empty.
Qed.

Lemma listing_returns (R : runtime) (docs : result (list dict)) (body : value) :
  listing R docs = Return body ->
  exists found, docs = Ok found
    /\ body = VList (map (fun d => VDict (to_str_id R d)) found).
Proof.
  destruct docs as [found|e]; simpl; intros H; inversion H; eauto.
Qed.

Lemma get_documents_limit (db : option server) (coll : string)
    (q : query) (n : nat) (found : list dict) :
  get_documents db coll q (Some n) = Ok found -> (List.length found <= n)%nat.
Proof.
  destruct db as [[st|st e]|]; cbv beta iota delta [get_documents];
    intros H; inversion H.
  apply firstn_le_length.
Qed.

(** C5.  Whatever the activity collection holds and whatever filters are
    given, [GET /activities] on a working store returns a list of at most
    200 documents; and no request to it, on any store, returns anything but
    such a list. *)
Theorem list_activities_at_most_200 (R : runtime)
    (entity_type entity_id : option string) :
  (forall st, exists docs,
      list_activities R (Some (Up st)) entity_type entity_id = Return (VList docs)
      /\ (List.length docs <= 200)%nat)
  /\ (forall db body,
      list_activities R db entity_type entity_id = Return body ->
      exists docs, body = VList docs /\ (List.length docs <= 200)%nat).
Proof.
  split.
  - intros st. unfold list_activities.
    cbv beta iota delta [get_documents listing].
    eexists. split; [reflexivity|].
    rewrite length_map. apply firstn_le_length.
  - intros db body H. unfold list_activities in H.
    apply listing_returns in H. destruct H as (found & Hget & ->).
    eexists. split; [reflexivity|]. rewrite length_map.
    eapply get_documents_limit, Hget.
Qed.

(** ** Statistics *)

(** *** Numbers up to the sign of zero *)

Module FloatFacts.

Lemma is_zero_spec (f : float) :
  float_is_zero f = true <-> zero_sf (Prim2SF f).
Proof.
  unfold float_is_zero, zero_sf. rewrite eqb_spec.
  change (Prim2SF 0) with (S754_zero false).
  destruct (Prim2SF f) as [s|s| |s m e]; cbn; split; intros H;
    try discriminate; eauto; try (destruct H; discriminate).
  - destruct s; discriminate.
  - destruct s; discriminate.
Qed.

Lemma same_number_spec (a b : float) :
  same_number a b <->
  Prim2SF a = Prim2SF b \/ (zero_sf (Prim2SF a) /\ zero_sf (Prim2SF b)).
Proof.
  unfold same_number. rewrite !is_zero_spec. split.
  - intros [->|H]; auto.
  - intros [H|H]; auto. left. now apply Prim2SF_inj.
Qed.

Lemma same_number_refl (a : float) : same_number a a.
Proof. now left. Qed.

Lemma SFadd_congruent (a a' x x' : spec_float) :
  a = a' \/ (zero_sf a /\ zero_sf a') ->
  x = x' \/ (zero_sf x /\ zero_sf x') ->
  SF64add a x = SF64add a' x'
  \/ (zero_sf (SF64add a x) /\ zero_sf (SF64add a' x')).
Proof.
  unfold zero_sf.
  intros [->|[[sa ->] [sa' ->]]] [->|[[sx ->] [sx' ->]]]; auto.
  - destruct a' as [s|s| |s m e]; cbn; auto.
    right. destruct s, sx, sx'; cbn; eauto.
  - destruct x' as [s|s| |s m e]; cbn; auto.
    right. destruct s, sa, sa'; cbn; eauto.
  - right. destruct sa, sa', sx, sx'; cbn; eauto.
Qed.

Lemma add_same_number (a a' x x' : float) :
  same_number a a' -> same_number x x' -> same_number (a + x) (a' + x').
Proof.
  rewrite !same_number_spec, !add_spec. apply SFadd_congruent.
Qed.

End FloatFacts.

Module StatsFacts.

Lemma holds_string_scalar (s : string) (deal : dict) (v : value) :
  scalar_stage deal = true -> Dict.get "stage" deal = Some v ->
  holds_string s v = is_string s v.
Proof.
  unfold scalar_stage. intros H E. rewrite E in H.
  destruct v; try reflexivity. discriminate.
Qed.

Lemma satisfies_equals (s : string) (deal : dict) :
  scalar_stage deal = true ->
  satisfies deal ("stage", Equals s) = stage_is s deal.
Proof.
  intros H. unfold satisfies, stage_is. cbn [fst snd].
  destruct (Dict.get "stage" deal) as [v|] eqn:E; auto.
  eapply holds_string_scalar; eauto.
Qed.

Lemma satisfies_nin (excluded : list string) (deal : dict) :
  scalar_stage deal = true ->
  satisfies deal ("stage", Nin excluded)
  = negb (existsb (fun s => stage_is s deal) excluded).
Proof.
  intros H. unfold satisfies, stage_is. cbn [fst snd].
  destruct (Dict.get "stage" deal) as [v|] eqn:E.
  - f_equal. induction excluded as [|s rest IH]; cbn [existsb]; auto.
    rewrite IH. f_equal. eapply holds_string_scalar; eauto.
  - induction excluded; cbn; auto.
Qed.

Lemma filter_agree (p q : dict -> bool) (ok : dict -> bool) (docs : list dict) :
  (forall d, ok d = true -> p d = q d) ->
  forallb ok docs = true -> filter p docs = filter q docs.
Proof.
  intros Hpq. induction docs as [|d rest IH]; cbn; auto.
  intros H. apply andb_prop in H as [Hd Hrest].
  rewrite (Hpq d Hd), (IH Hrest). reflexivity.
Qed.

Lemma matches_not_lost (deals : list dict) :
  forallb scalar_stage deals = true ->
  filter (matches [("stage", Nin ["Lost"])]) deals
  = filter (fun d => negb (stage_is "Lost" d)) deals.
Proof.
  apply filter_agree. intros d H. unfold matches. cbn [forallb].
  rewrite satisfies_nin by assumption. cbn [existsb].
  now rewrite orb_false_r, andb_true_r.
Qed.

Lemma matches_in_pipeline (deals : list dict) :
  forallb scalar_stage deals = true ->
  filter (matches [("stage", Nin ["Won"; "Lost"])]) deals
  = filter in_pipeline deals.
Proof.
  apply filter_agree. intros d H. unfold matches, in_pipeline. cbn [forallb].
  rewrite satisfies_nin by assumption. cbn [existsb].
  now rewrite orb_false_r, andb_true_r, negb_orb.
Qed.

Lemma matches_won (deals : list dict) :
  forallb scalar_stage deals = true ->
  filter (matches [("stage", Equals "Won")]) deals
  = filter (stage_is "Won") deals.
Proof.
  apply filter_agree. intros d H. unfold matches. cbn [forallb].
  rewrite satisfies_equals by assumption. now rewrite andb_true_r.
Qed.

(** One turn of the loop adds the deal's amount. *)
Lemma float_of_value (R : runtime) (deal : dict) :
  numeric_value deal = true ->
  exists x,
    py_float R (py_or (Dict.get_default "value" (VInt 0) deal) (VInt 0)) = Ok x
    /\ same_number x (amount deal).
Proof.
  unfold numeric_value, amount, Dict.get_default, py_or.
  destruct (Dict.get "value" deal) as [v|].
  2:{ intros _. exists 0%float. split; [reflexivity|now left]. }
  destruct v; cbn [number_of truthy]; intros H; try discriminate.
  - exists 0%float. split; [reflexivity|now left].
  - destruct (Z.eqb_spec z 0) as [->|Hz]; cbn [negb].
    + exists 0%float. split; [reflexivity|now left].
    + cbn [py_float]. destruct (float_of_int z) as [f|e]; [|discriminate].
      exists f. split; [reflexivity|now left].
  - destruct (float_is_zero f) eqn:Hf; cbn [negb].
    + exists 0%float. split; [reflexivity|]. right. split; [reflexivity|assumption].
    + exists f. split; [reflexivity|now left].
Qed.

Lemma add_values_total (R : runtime) (deals : list dict) :
  forallb numeric_value deals = true ->
  forall acc acc', same_number acc acc' ->
  exists pv, add_values R deals acc = Ok pv
    /\ same_number pv (fold_left PrimFloat.add (map amount deals) acc').
Proof.
  induction deals as [|d rest IH]; cbn [add_values forallb map fold_left].
  - intros _ acc acc' H. exists acc. auto.
  - intros H acc acc' Hacc. apply andb_prop in H as [Hd Hrest].
    destruct (float_of_value R d Hd) as (x & -> & Hx).
    apply (IH Hrest). now apply FloatFacts.add_same_number.
Qed.

End StatsFacts.

(** The empty filter selects every document. *)
Lemma filter_matches_all (docs : list dict) : filter (matches []) docs = docs.
Proof.
  induction docs as [|d rest IH]; cbn; [reflexivity|]. now f_equal.
Qed.

(** On a working store the endpoint fails only when a value does not
    convert; otherwise it returns the five numbers. *)
Lemma stats_summary_up (R : runtime) (st : store) :
  bool_of_handle R = Ok true ->
  stats_summary R (Some (Up st)) =
  match add_values R (filter (matches [("stage", Nin ["Won"; "Lost"])])
                        (documents st "deal")) 0%float with
  | Ok pv =>
      Return (VDict
        [ ("total_contacts", VInt (Z.of_nat (List.length (documents st "contact"))));
          ("active_deals", VInt (Z.of_nat (List.length
             (filter (matches [("stage", Nin ["Lost"])]) (documents st "deal")))));
          ("pipeline_value", VFloat pv);
          ("won_deals", VInt (Z.of_nat (List.length
             (filter (matches [("stage", Equals "Won")]) (documents st "deal")))));
          ("created_last_30_days",
           VInt (Z.of_nat (List.length (documents st "contact")))) ])
  | Raise e => HTTPException 500 (exn_text e)
  end.
Proof.
  intros Htrue.
  unfold stats_summary, count_if_db, handle_truthy, count_documents, find.
  rewrite Htrue. cbn. rewrite filter_matches_all.
  destruct (add_values R _ _); reflexivity.
Qed.

(** Without a working store the endpoint never returns. *)
Lemma stats_summary_returns (R : runtime) (db : option server) (body : value) :
  stats_summary R db = Return body -> exists st, db = Some (Up st).
Proof.
  destruct db as [[st|st e]|]; eauto;
    unfold stats_summary, count_if_db, handle_truthy;
    destruct (bool_of_handle R) as [[|]|e']; discriminate.
Qed.

(** C1.  Whenever [GET /stats/summary] answers, its [active_deals] is the
    number of deals whose stage is not "Lost" (a deal that is "Won" counts),
    for every deal collection whose stages are not arrays, the store handle
    being one that counts as true; and it does answer when the values of the
    pipeline deals are numbers. *)
Theorem active_deals_counts_not_lost (R : runtime) (st : store) :
  bool_of_handle R = Ok true ->
  forallb scalar_stage (documents st "deal") = true ->
  (forall body,
      stats_summary R (Some (Up st)) = Return (VDict body) ->
      Dict.get "active_deals" body
      = Some (VInt (count (fun d => negb (stage_is "Lost" d)) (documents st "deal"))))
  /\ (forallb numeric_value (filter in_pipeline (documents st "deal")) = true ->
      exists body, stats_summary R (Some (Up st)) = Return (VDict body)).
Proof.
  intros Htrue Hstage. rewrite stats_summary_up by assumption. split.
  - intros body H.
    destruct (add_values R _ _) as [pv|e]; [|discriminate].
    injection H as <-. cbn [Dict.get String.eqb Ascii.eqb Bool.eqb].
    unfold count. now rewrite StatsFacts.matches_not_lost.
  - intros Hvalue. rewrite StatsFacts.matches_in_pipeline by assumption.
    destruct (StatsFacts.add_values_total R _ Hvalue 0%float 0%float
                (FloatFacts.same_number_refl _)) as (pv & -> & _).
    eexists. reflexivity.
Qed.

(** C1 on the three deals of the spec's example, in stages New, Won and
    Negotiation: 3. *)
Lemma active_deals_counts_not_lost_witness :
  (bool_of_handle Sample.runtime = Ok true
   /\ forallb scalar_stage (documents three_deals "deal") = true)
  /\ stats_summary Sample.runtime (Some (Up three_deals)) =
       Return (VDict [ ("total_contacts", VInt 0); ("active_deals", VInt 3);
                       ("pipeline_value", VFloat 125); ("won_deals", VInt 1);
                       ("created_last_30_days", VInt 0) ])
  /\ Dict.get "active_deals"
        [ ("total_contacts", VInt 0); ("active_deals", VInt 3);
          ("pipeline_value", VFloat 125); ("won_deals", VInt 1);
          ("created_last_30_days", VInt 0) ] = Some (VInt 3).
Proof.
  split; [split; reflexivity|]. split; [reflexivity|].
  exact (proj1 (active_deals_counts_not_lost Sample.runtime three_deals
                  eq_refl eq_refl) _ eq_refl).
Defined.

(** C2.  For every deal collection whose stages are not arrays and whose
    pipeline deals hold a number under [value] or nothing, the store handle
    being one that counts as true, the endpoint answers; its
    [pipeline_value] is the sum of [value] over the deals that are neither
    "Won" nor "Lost", a missing value counting as 0 (the same number, up to
    the sign of a zero), and its [won_deals] is the number of deals whose
    stage is "Won". *)
Theorem pipeline_value_and_won_deals (R : runtime) (st : store) :
  bool_of_handle R = Ok true ->
  forallb scalar_stage (documents st "deal") = true ->
  forallb numeric_value (filter in_pipeline (documents st "deal")) = true ->
  exists body pv,
    stats_summary R (Some (Up st)) = Return (VDict body)
    /\ Dict.get "pipeline_value" body = Some (VFloat pv)
    /\ same_number pv (total (map amount (filter in_pipeline (documents st "deal"))))
    /\ Dict.get "won_deals" body
       = Some (VInt (count (stage_is "Won") (documents st "deal"))).
Proof.
  intros Htrue Hstage Hvalue. rewrite stats_summary_up by assumption.
  rewrite StatsFacts.matches_in_pipeline by assumption.
  destruct (StatsFacts.add_values_total R _ Hvalue 0%float 0%float
              (FloatFacts.same_number_refl _)) as (pv & -> & Hpv).
  eexists. exists pv. split; [reflexivity|].
  cbn [Dict.get String.eqb Ascii.eqb Bool.eqb].
  split; [reflexivity|]. split; [exact Hpv|].
  unfold count. now rewrite StatsFacts.matches_won.
Qed.

(** C2 on the deals of the spec's example: 100 + 25 = 125 in the pipeline,
    and one deal won. *)
Lemma pipeline_value_and_won_deals_witness :
  (bool_of_handle Sample.runtime = Ok true
   /\ forallb scalar_stage (documents three_deals "deal") = true
   /\ forallb numeric_value (filter in_pipeline (documents three_deals "deal")) = true)
  /\ (total (map amount (filter in_pipeline (documents three_deals "deal"))) = 125%float
      /\ count (stage_is "Won") (documents three_deals "deal") = 1%Z)
  /\ exists body pv,
      stats_summary Sample.runtime (Some (Up three_deals)) = Return (VDict body)
      /\ Dict.get "pipeline_value" body = Some (VFloat pv)
      /\ same_number pv 125%float
      /\ Dict.get "won_deals" body = Some (VInt 1).
Proof.
  split; [repeat split|]. split; [split; reflexivity|].
  exact (pipeline_value_and_won_deals Sample.runtime three_deals
           eq_refl eq_refl eq_refl).
Defined.

(** C3.  Whenever [GET /stats/summary] answers, [created_last_30_days] is
    the same number as [total_contacts] of that response; the store is a
    working one, and with a handle that counts as true the number is that of
    all contact documents, whatever their dates. *)
Theorem created_last_30_days_is_total_contacts (R : runtime)
    (db : option server) (body : dict) :
  stats_summary R db = Return (VDict body) ->
  Dict.get "created_last_30_days" body = Dict.get "total_contacts" body
  /\ exists st n, db = Some (Up st)
       /\ Dict.get "total_contacts" body = Some (VInt n)
       /\ (bool_of_handle R = Ok true ->
           n = Z.of_nat (List.length (documents st "contact"))).
Proof.
  intros H. destruct (stats_summary_returns R db _ H) as (st & ->).
  unfold stats_summary, count_if_db, handle_truthy, count_documents, find in H.
  destruct (bool_of_handle R) as [[|]|e'] eqn:Hb; cbn in H;
    try discriminate;
    destruct (add_values R _ _) as [pv|e]; try discriminate;
    injection H as <-; (split; [reflexivity|]); do 2 eexists;
    (split; [reflexivity|]); (split; [reflexivity|]); intros Htrue.
  - now rewrite filter_matches_all.
  - discriminate.
Qed.

(** C3 on a store of two contacts: both numbers are 2. *)
Lemma created_last_30_days_is_total_contacts_witness :
  stats_summary Sample.runtime (Some (Up two_contacts)) =
    Return (VDict [ ("total_contacts", VInt 2); ("active_deals", VInt 0);
                    ("pipeline_value", VFloat 0); ("won_deals", VInt 0);
                    ("created_last_30_days", VInt 2) ])
  /\ Dict.get "created_last_30_days"
        [ ("total_contacts", VInt 2); ("active_deals", VInt 0);
          ("pipeline_value", VFloat 0); ("won_deals", VInt 0);
          ("created_last_30_days", VInt 2) ]
     = Some (VInt 2).
Proof.
  split; [reflexivity|].
  exact (proj1 (created_last_30_days_is_total_contacts Sample.runtime
                  (Some (Up two_contacts)) _ eq_refl)).
Defined.

(** ** Writing to the store *)

Module StoreFacts.

Lemma lookup_append_to (coll c : string) (doc : dict) (cs : list (string * list dict)) :
  lookup coll (append_to c doc cs)
  = if String.eqb coll c then lookup coll cs ++ [doc] else lookup coll cs.
Proof.
  induction cs as [|[c0 docs] rest IH]; cbn [append_to lookup].
  - destruct (String.eqb coll c); reflexivity.
  - destruct (String.eqb_spec c c0) as [->|Hc]; cbn [lookup].
    + destruct (String.eqb coll c0); reflexivity.
    + destruct (String.eqb_spec coll c0) as [->|Hc0]; [|exact IH].
      destruct (String.eqb_spec c0 c); congruence.
Qed.

Lemma documents_insert_one (st : store) (coll c : string) (doc : dict) :
  documents (insert_one st c doc) coll
  = if String.eqb coll c
    then documents st coll ++ [("_id", VObjectId (next_oid st)) :: doc]
    else documents st coll.
Proof. unfold documents, insert_one. cbn [collections]. apply lookup_append_to. Qed.

End StoreFacts.

(** ** Sending e-mail *)

Lemma log_recipients_up (R : runtime) (payload : SendEmailPayload) (addrs : list string) :
  forall st, exists st' new,
    log_recipients R payload addrs (Some (Up st)) = (Ok tt, Some (Up st'))
    /\ documents st' "activity" = documents st "activity" ++ new
    /\ Forall2 logged addrs new
    /\ forall coll, coll <> "activity" -> documents st' coll = documents st coll.
Proof.
  induction addrs as [|addr rest IH]; intros st; cbn [log_recipients create_document].
  - exists st, []. rewrite app_nil_r. repeat split; auto.
  - destruct (IH (insert_one st "activity" (email_activity payload addr)))
      as (st' & new & -> & Hdocs & Hnew & Hother).
    exists st', ((("_id", VObjectId (next_oid st)) :: email_activity payload addr) :: new).
    split; [reflexivity|]. split; [|split].
    + rewrite Hdocs, StoreFacts.documents_insert_one.
      rewrite String.eqb_refl, <- app_assoc. reflexivity.
    + constructor; [|exact Hnew]. repeat split.
    + intros coll Hc. rewrite (Hother coll Hc), StoreFacts.documents_insert_one.
      destruct (String.eqb_spec coll "activity"); congruence.
Qed.

(** C4, as stated, fails: a payload that gives the empty string as provider
    is answered with provider "mock", not with the provider given. *)
Lemma send_email_empty_provider :
  fst (send_email Sample.runtime (Some (Up Sample.empty)) empty_provider)
  = Return (VDict [ ("status", VStr "queued"); ("provider", VStr "mock");
                    ("sent", VInt 1) ])
  /\ given_or_mock empty_provider = ""
  /\ VStr "mock" <> VStr (given_or_mock empty_provider).
Proof.
  split; [reflexivity|]. split; [reflexivity|]. discriminate.
Qed.

(** C4, amended.  On a working store [POST /email/send] adds to the activity
    collection exactly one document per address in [to], in order, each with
    entity_type "contact", type "email_sent" and the address as entity_id,
    and touches no other collection; it returns status "queued", the number
    of addresses as [sent], and as provider the given one when that is a
    non-empty string, "mock" when it is absent or empty. *)
Theorem send_email_logs_each_recipient (R : runtime) (st : store)
    (payload : SendEmailPayload) :
  exists st' new,
    send_email R (Some (Up st)) payload
    = (Return (VDict
         [ ("status", VStr "queued");
           ("provider",
            VStr (match provider payload with
                  | Some p => if String.eqb p "" then "mock" else p
                  | None => "mock"
                  end));
           ("sent", VInt (Z.of_nat (List.length (to payload)))) ]),
       Some (Up st'))
    /\ documents st' "activity" = documents st "activity" ++ new
    /\ List.length new = List.length (to payload)
    /\ Forall2 logged (to payload) new
    /\ forall coll, coll <> "activity" -> documents st' coll = documents st coll.
Proof.
  destruct (log_recipients_up R payload (to payload) st)
    as (st' & new & Hlog & Hdocs & Hnew & Hother).
  exists st', new. unfold send_email. rewrite Hlog.
  split; [|split; [exact Hdocs|split; [|split; assumption]]].
  - unfold provider_or_mock. destruct (provider payload) as [p|]; [|reflexivity].
    cbn [truthy]. destruct (String.eqb p ""); reflexivity.
  - symmetry. eapply Forall2_length, Hnew.
Qed.

(** C4 on the two recipients of the spec's example: two documents, and
    [sent] is 2. *)
Lemma send_email_logs_each_recipient_witness :
  exists st' new,
    send_email Sample.runtime (Some (Up Sample.empty)) two_recipients
    = (Return (VDict [ ("status", VStr "queued"); ("provider", VStr "mock");
                       ("sent", VInt 2) ]),
       Some (Up st'))
    /\ documents st' "activity" = documents Sample.empty "activity" ++ new
    /\ List.length new = 2%nat
    /\ Forall2 logged ["a@x.com"; "b@x.com"] new
    /\ forall coll, coll <> "activity" -> documents st' coll = documents Sample.empty coll.
Proof.
  exact (send_email_logs_each_recipient Sample.runtime Sample.empty two_recipients).
Defined.

(** ** Storage failures *)

Module TextFacts.

Lemma slice_to_length (n : nat) (s : string) : (char_length (slice_to n s) <= n)%nat.
Proof.
  revert n. induction s as [|c rest IH]; intros n; cbn [slice_to char_length]; [lia|].
  destruct (continues c) eqn:Hc; cbn [char_length]; rewrite ?Hc; [apply IH|].
  destruct n as [|n]; cbn [char_length]; rewrite ?Hc; [lia|].
  specialize (IH n). lia.
Qed.

Lemma slice_to_prefix (n : nat) (s : string) : prefix (slice_to n s) s = true.
Proof.
  revert n. induction s as [|c rest IH]; intros n; cbn [slice_to]; [reflexivity|].
  destruct (continues c); [|destruct n as [|n]; [reflexivity|]];
    cbn [prefix]; destruct (ascii_dec c c) as [_|Hc]; auto; congruence.
Qed.

(** A text cut to fewer characters than it has is not the text. *)
Lemma truncation_differs (n : nat) (s : string) :
  (n < char_length s)%nat -> s <> slice_to n s.
Proof.
  intros Hn Heq. pose proof (slice_to_length n s) as Hle.
  rewrite <- Heq in Hle. lia.
Qed.

End TextFacts.

(** While the storage fails with [e], the statistics answer 500 with the
    whole text of the exception raised: [e], or what testing the handle for
    truth raised before the storage was asked. *)
Lemma stats_summary_down (R : runtime) (st : store) (e : exn) :
  stats_summary R (Some (Down st e))
  = HTTPException 500
      (exn_text match bool_of_handle R with Raise e' => e' | Ok _ => e end).
Proof.
  unfold stats_summary, count_if_db, handle_truthy.
  destruct (bool_of_handle R) as [[|]|e']; reflexivity.
Qed.

(** C8, as stated, fails: the detail of the 500 that [GET /stats/summary]
    answers a storage failure with is the whole exception text, here of more
    than 120 characters, and not a truncation of it.  Where testing the
    handle for truth raises, the detail is the whole text of that exception
    instead; whatever the runtime, it is the whole text of the exception
    that was raised. *)
Lemma stats_summary_detail_not_truncated :
  stats_summary Sample.runtime (Some (Down Sample.empty outage))
  = HTTPException 500 (exn_text outage)
  /\ (120 < char_length (exn_text outage))%nat
  /\ (forall n, (n < char_length (exn_text outage))%nat ->
        exn_text outage <> slice_to n (exn_text outage))
  /\ stats_summary (with_untestable_handle no_truth_value)
       (Some (Down Sample.empty outage))
     = HTTPException 500 (exn_text no_truth_value)
  /\ (forall R, exists raised,
        stats_summary R (Some (Down Sample.empty outage))
        = HTTPException 500 (exn_text raised)
        /\ (raised = outage \/ bool_of_handle R = Raise raised)).
Proof.
  split; [reflexivity|]. split; [|split; [|split]].
  - apply Nat.ltb_lt. reflexivity.
  - intros n. apply TextFacts.truncation_differs.
  - reflexivity.
  - intros R. rewrite stats_summary_down.
    destruct (bool_of_handle R) as [b|e']; eexists; split; eauto.
Qed.

(** C8, amended.  While the storage fails with an error [e]:
    [GET /stats/summary] answers 500 with, as detail, the whole text of the
    exception raised ([e], unless testing the handle for truth already
    raised); every list endpoint ends in [e], uncaught; a request with a
    body that does not validate is answered 422; a create endpoint whose
    body validates ends in [e], uncaught, and so does [POST /email/send]
    unless it names no recipient, when it asks the storage nothing and
    answers; in each case the store is as it was.  [GET /test] alone cuts the
    text: it answers 200, with the first 80 characters of the text of [e] in
    its [database] line.  Without a handle, the statistics answer 500 with
    the text of the [AttributeError]. *)
Theorem storage_failure_surfaces (R : runtime) (st : store) (e : exn) :
  let db := Some (Down st e) in
  (handle R db GET_stats_summary
   = (HTTPException 500
        (exn_text match bool_of_handle R with Raise e' => e' | Ok _ => e end),
      db)
   /\ stats_summary R None
      = HTTPException 500 "'NoneType' object has no attribute 'deal'")
  /\ (forall req, is_listing req = true -> handle R db req = (Uncaught e, db))
  /\ (forall req fields body errors,
        creation req = Some (fields, body) ->
        validate R fields body = inl errors ->
        handle R db req = (RequestValidationError errors, db))
  /\ (forall req fields body model,
        creation req = Some (fields, body) ->
        validate R fields body = inr model ->
        handle R db req
        = (match req, to (SendEmailPayload_of model) with
           | POST_email_send _, [] =>
               Return (VDict [ ("status", VStr "queued");
                               ("provider",
                                VStr (provider_or_mock (SendEmailPayload_of model)));
                               ("sent", VInt 0) ])
           | _, _ => Uncaught e
           end, db))
  /\ (forall database_name,
        name_of_handle R (name st) = Ok database_name ->
        exists body,
          handle R db GET_test = (Return (VDict body), db)
          /\ Dict.get "database" body
             = Some (VStr ("⚠️ Connected but Error: " ++ slice_to 80 (exn_text e)))
          /\ (char_length (slice_to 80 (exn_text e)) <= 80)%nat
          /\ prefix (slice_to 80 (exn_text e)) (exn_text e) = true).
Proof.
  cbv zeta. split; [|split; [|split; [|split]]].
  - cbn [handle]. now rewrite stats_summary_down.
  - intros req Hreq. destruct req; try discriminate; reflexivity.
  - intros req fields body errors Hreq Hval.
    destruct req; try discriminate; cbn [creation] in Hreq;
      injection Hreq as <- <-; cbn [handle]; unfold with_body;
      now rewrite Hval.
  - intros req fields body model Hreq Hval.
    destruct req; try discriminate; cbn [creation] in Hreq;
      injection Hreq as <- <-; cbn [handle]; unfold with_body;
      rewrite Hval; try (destruct (to (SendEmailPayload_of model)); reflexivity).
    unfold send_email.
    destruct (to (SendEmailPayload_of model)) as [|addr rest]; reflexivity.
  - intros database_name Hname. cbn [handle]. unfold test_database.
    cbn [data]. rewrite Hname. eexists. split; [reflexivity|].
    cbn [Dict.set Dict.get String.eqb Ascii.eqb Bool.eqb].
    split; [reflexivity|].
    split; [apply TextFacts.slice_to_length|apply TextFacts.slice_to_prefix].
Qed.

(** C8 on a deal that validates, sent while no server answers: the error
    of the driver leaves [create_deal] as it is, and the deals are as they
    were; and on the diagnostic while the storage fails with a text of a
    hundred accented letters, of which eighty are kept. *)
Lemma storage_failure_surfaces_witness :
  validate Sample.runtime Deal upsell
  = inr [ ("deal_name", VStr "Upsell"); ("value", VFloat 10);
          ("stage", VStr "Won"); ("contact_id", VNone); ("company_id", VNone);
          ("deadline", VNone); ("notes", VNone) ]
  /\ handle Sample.runtime (Some (Down three_deals outage)) (POST_deals upsell)
     = (Uncaught outage, Some (Down three_deals outage))
  /\ exists body,
       handle Sample.runtime (Some (Down three_deals accented)) GET_test
       = (Return (VDict body), Some (Down three_deals accented))
       /\ Dict.get "database" body
          = Some (VStr ("⚠️ Connected but Error: " ++ String.concat "" (repeat "é" 80))).
Proof.
  split; [reflexivity|]. split.
  - exact (proj1 (proj2 (proj2 (proj2
             (storage_failure_surfaces Sample.runtime three_deals outage))))
             (POST_deals upsell) Deal upsell _ eq_refl eq_refl).
  - destruct (proj2 (proj2 (proj2 (proj2
               (storage_failure_surfaces Sample.runtime three_deals accented))))
               "crm" eq_refl) as (body & Hbody & Hdatabase & _).
    exists body. split; [exact Hbody|]. rewrite Hdatabase. reflexivity.
Defined.

(** ** Documents are never changed or removed *)

Module KeptFacts.

Lemma kept_refl (db : option server) : kept db db.
Proof.
  destruct db as [[st|st e]|]; cbn; auto.
  intros coll. exists []. now rewrite app_nil_r.
Qed.

Lemma kept_trans (db1 db2 db3 : option server) :
  kept db1 db2 -> kept db2 db3 -> kept db1 db3.
Proof.
  destruct db1 as [[s1|s1 e1]|], db2 as [[s2|s2 e2]|], db3 as [[s3|s3 e3]|];
    cbn; try tauto.
  - intros H12 H23 coll.
    destruct (H12 coll) as [new1 E1], (H23 coll) as [new2 E2].
    exists (new1 ++ new2). now rewrite E2, E1, app_assoc.
  - intros [-> ->] [-> ->]. auto.
Qed.

Lemma create_document_kept (R : runtime) (db : option server) (coll : string)
    (payload : dict) :
  kept db (snd (create_document R db coll payload)).
Proof.
  destruct db as [[st|st e]|]; cbn [create_document snd kept]; auto.
  intros c. rewrite StoreFacts.documents_insert_one.
  destruct (String.eqb c coll); eauto. exists []. now rewrite app_nil_r.
Qed.

Lemma create_kept (R : runtime) (coll : string) (db : option server) (model : dict) :
  kept db (snd (create R coll db model)).
Proof.
  unfold create. pose proof (create_document_kept R db coll model) as H.
  destruct (create_document R db coll model) as [[new_id|e] db']; exact H.
Qed.

Lemma log_recipients_kept (R : runtime) (payload : SendEmailPayload)
    (addrs : list string) :
  forall db, kept db (snd (log_recipients R payload addrs db)).
Proof.
  induction addrs as [|addr rest IH]; intros db; cbn [log_recipients].
  - apply kept_refl.
  - pose proof (create_document_kept R db "activity" (email_activity payload addr)) as H.
    destruct (create_document R db "activity" _) as [[new_id|e] db']; cbn [snd] in *.
    + eapply kept_trans; [exact H|apply IH].
    + exact H.
Qed.

Lemma send_email_kept (R : runtime) (db : option server) (payload : SendEmailPayload) :
  kept db (snd (send_email R db payload)).
Proof.
  unfold send_email. pose proof (log_recipients_kept R payload (to payload) db) as H.
  destruct (log_recipients R payload (to payload) db) as [[u|e] db']; exact H.
Qed.

Lemma with_body_kept (R : runtime) (fields : list field)
    (handler : option server -> dict -> response * option server)
    (db : option server) (body : value) :
  (forall db model, kept db (snd (handler db model))) ->
  kept db (snd (with_body R fields handler db body)).
Proof.
  intros H. unfold with_body.
  destruct (validate R fields body) as [errors|model]; [apply kept_refl|apply H].
Qed.

Lemma handle_read (R : runtime) (db : option server) (req : request) :
  is_read req = true -> snd (handle R db req) = db.
Proof. destruct req; cbn [is_read handle snd]; intros H; auto; discriminate. Qed.

Lemma handle_kept (R : runtime) (db : option server) (req : request) :
  kept db (snd (handle R db req)).
Proof.
  destruct (is_read req) eqn:Hread.
  - rewrite handle_read by assumption. apply kept_refl.
  - destruct req; try discriminate; cbn [handle];
      apply with_body_kept; intros db0 model;
      first [apply create_kept | apply send_email_kept].
Qed.

End KeptFacts.

(** C9.  After any sequence of requests every collection still starts with
    the documents it held before, unchanged; a request that lists, counts or
    reports statistics leaves the whole store as it was; and every request
    is one of these or a creation, which only appends: there is no request
    that updates or deletes. *)
Theorem documents_are_never_changed (R : runtime) (db : option server) :
  (forall reqs, kept db (serve R db reqs))
  /\ (forall req, is_read req = true -> snd (handle R db req) = db)
  /\ (forall req, is_read req = false ->
        exists fields handler body,
          handle R db req = with_body R fields handler db body
          /\ forall db0 model, kept db0 (snd (handler db0 model))).
Proof.
  split; [|split].
  - intros reqs. revert db. unfold serve.
    induction reqs as [|req rest IH]; intros db; cbn [fold_left].
    + apply KeptFacts.kept_refl.
    + eapply KeptFacts.kept_trans; [apply KeptFacts.handle_kept|apply IH].
  - intros req. apply KeptFacts.handle_read.
  - intros req Hreq.
    destruct req; try discriminate; cbn [handle];
      do 3 eexists; (split; [reflexivity|]); intros db0 model;
      first [apply KeptFacts.create_kept | apply KeptFacts.send_email_kept].
Qed.

(** C9 on a sequence of requests: the three deals are still the first
    three, one deal and one activity were added. *)
Lemma documents_are_never_changed_witness :
  (exists st', serve Sample.runtime (Some (Up three_deals)) busy_day = Some (Up st')
     /\ List.length (documents st' "deal") = 4%nat
     /\ firstn 3 (documents st' "deal") = documents three_deals "deal"
     /\ List.length (documents st' "activity") = 1%nat)
  /\ kept (Some (Up three_deals)) (serve Sample.runtime (Some (Up three_deals)) busy_day).
Proof.
  split.
  - eexists. split; [reflexivity|]. repeat split.
  - exact (proj1 (documents_are_never_changed Sample.runtime (Some (Up three_deals)))
             busy_day).
Defined.

(** ** Validation before storage *)

Module ValidationFacts.

Lemma literal_refuses (R : runtime) (choices : list string) (v : value) :
  (forall s, In s choices -> v <> VStr s) ->
  validate_type R (TLiteral choices) v = None.
Proof.
  intros H. cbn [validate_type]. destruct v; try reflexivity.
  destruct (existsb (String.eqb s) choices) eqn:E; [|reflexivity].
  apply existsb_exists in E as (s' & Hin & Heq).
  apply String.eqb_eq in Heq as <-. now destruct (H s Hin).
Qed.

Lemma defect_refuses (R : runtime) (body : dict) (f : field) :
  defect R body f -> validate_field R body f = None.
Proof.
  unfold validate_field.
  intros [Hget Hdef|choices v Hty Hget Hout|v Hget Href]; rewrite Hget; auto.
  rewrite Hty. now apply literal_refuses.
Qed.

Lemma refused_is_reported (R : runtime) (body : dict) (f : field) (fields : list field) :
  In f fields -> validate_field R body f = None ->
  In (field_name f) (fst (validate_fields R fields body)).
Proof.
  induction fields as [|g rest IH]; [contradiction|].
  intros [->|Hin] Hf; cbn [validate_fields];
    destruct (validate_fields R rest body) as [errors model] eqn:E.
  - rewrite Hf. now left.
  - specialize (IH Hin Hf). cbn [fst] in IH.
    destruct (validate_field R body g); cbn [fst]; auto. now right.
Qed.

Lemma invalid_is_rejected (R : runtime) (fields : list field) (body : value) :
  invalid R fields body ->
  exists errors, validate R fields body = inl errors /\ errors <> []
    /\ forall entries f, body = VDict entries -> In f fields ->
         defect R entries f -> In (field_name f) errors.
Proof.
  destruct body as [| | | | | |entries| |]; cbn [invalid validate];
    try (intros _; exists ["body"]; repeat split; discriminate).
  intros (f & Hin & Hdefect).
  pose proof (refused_is_reported R entries f fields Hin
                (defect_refuses R entries f Hdefect)) as Hrep.
  destruct (validate_fields R fields entries) as [errors model] eqn:E.
  cbn [fst] in Hrep. destruct errors as [|name errors]; [contradiction|].
  eexists. split; [reflexivity|]. split; [discriminate|].
  intros entries' g Heq Hg Hd. injection Heq as <-.
  pose proof (refused_is_reported R entries g fields Hg
                (defect_refuses R entries g Hd)) as H.
  now rewrite E in H.
Qed.

Lemma handle_creation (R : runtime) (db : option server) (req : request)
    (fields : list field) (body : value) :
  creation req = Some (fields, body) ->
  exists handler, handle R db req = with_body R fields handler db body.
Proof.
  destruct req; cbn [creation]; intros H; inversion H; subst;
    eexists; reflexivity.
Qed.

End ValidationFacts.

(** C6, as stated, fails: [value] is declared a float, the body gives it as
    a string, which is a wrong primitive type, and yet the validator reads the
    string as the number 12.5, the request is accepted and the deal is
    written to the store. *)
Lemma numeric_string_is_accepted :
  In (required "value" TFloat) Deal
  /\ wrong_primitive_type TFloat (VStr "12.5")
  /\ handle Sample.runtime (Some (Up Sample.empty)) (POST_deals numeric_string_deal)
     = (Return (VDict [("id", VStr "000000000000000000000000")]),
        Some (Up (Store "crm"
          [ ("deal",
             [ [ ("_id", VObjectId 0); ("deal_name", VStr "Renewal");
                 ("value", VFloat 12.5); ("stage", VStr "New");
                 ("contact_id", VNone); ("company_id", VNone);
                 ("deadline", VNone); ("notes", VNone) ] ]) ]
          1))).
Proof.
  split; [right; left; reflexivity|]. split; [split; discriminate|]. reflexivity.
Qed.

(** C6, amended.  A creating request whose body is not an object, leaves out
    a required field, gives an enumerated field a value outside its
    enumeration, or gives a field a value that the validator of its declared
    type refuses (a value of another primitive type that the validator can
    coerce, such as a numeric string for a float, is not refused) is answered
    with a validation error naming the offending fields, and the store is
    left as it was.  In particular this holds of every deal whose [stage] is
    none of "New", "Contacted", "Proposal Sent", "Negotiation", "Won",
    "Lost". *)
Theorem invalid_body_never_reaches_the_store (R : runtime) (db : option server) :
  (forall req fields body,
      creation req = Some (fields, body) -> invalid R fields body ->
      exists errors,
        handle R db req = (RequestValidationError errors, db) /\ errors <> []
        /\ forall entries f, body = VDict entries -> In f fields ->
             defect R entries f -> In (field_name f) errors)
  /\ (forall entries v,
      Dict.get "stage" entries = Some v ->
      (forall s, In s deal_stages -> v <> VStr s) ->
      exists errors,
        handle R db (POST_deals (VDict entries)) = (RequestValidationError errors, db)
        /\ In "stage" errors).
Proof.
  assert (General : forall req fields body,
      creation req = Some (fields, body) -> invalid R fields body ->
      exists errors,
        handle R db req = (RequestValidationError errors, db) /\ errors <> []
        /\ forall entries f, body = VDict entries -> In f fields ->
             defect R entries f -> In (field_name f) errors).
  { intros req fields body Hreq Hbad.
    destruct (ValidationFacts.handle_creation R db req fields body Hreq)
      as [handler ->].
    destruct (ValidationFacts.invalid_is_rejected R fields body Hbad)
      as (errors & Hval & Hne & Hnames).
    exists errors. unfold with_body. rewrite Hval. auto. }
  split; [exact General|].
  intros entries v Hget Hout.
  set (stage := Field "stage" (TLiteral deal_stages) (Some (VStr "New"))).
  assert (Hin : In stage Deal) by (cbn; auto).
  assert (Hdefect : defect R entries stage)
    by (eapply outside_enumeration; [reflexivity|exact Hget|exact Hout]).
  destruct (General (POST_deals (VDict entries)) Deal (VDict entries) eq_refl)
    as (errors & Hhandle & _ & Hnames).
  { exists stage. auto. }
  exists errors. split; [exact Hhandle|].
  exact (Hnames entries stage eq_refl Hin Hdefect).
Qed.

(** C6 on a deal in the stage "Archived": refused for its [stage], and the
    store is the same. *)
Lemma invalid_body_never_reaches_the_store_witness :
  (Dict.get "stage" archived_deal = Some (VStr "Archived")
   /\ forall s, In s deal_stages -> VStr "Archived" <> VStr s)
  /\ handle Sample.runtime (Some (Up three_deals)) (POST_deals (VDict archived_deal))
     = (RequestValidationError ["stage"], Some (Up three_deals))
  /\ exists errors,
      handle Sample.runtime (Some (Up three_deals)) (POST_deals (VDict archived_deal))
      = (RequestValidationError errors, Some (Up three_deals))
      /\ In "stage" errors.
Proof.
  assert (Hout : forall s, In s deal_stages -> VStr "Archived" <> VStr s).
  { intros s Hs. cbn in Hs.
    repeat (destruct Hs as [<-|Hs]; [discriminate|]). contradiction. }
  split; [split; [reflexivity|exact Hout]|]. split; [reflexivity|].
  exact (proj2 (invalid_body_never_reaches_the_store Sample.runtime
                  (Some (Up three_deals)))
           archived_deal (VStr "Archived") eq_refl Hout).
Defined.

(** ** The deals this system writes *)

Module DealFacts.

Lemma valid_deal_shape (deal : dict) :
  valid_deal deal -> scalar_stage deal = true /\ numeric_value deal = true.
Proof.
  intros [(s & _ & Hs) (f & Hf)]. unfold scalar_stage, numeric_value.
  now rewrite Hs, Hf.
Qed.

Lemma valid_deals_shape (deals : list dict) :
  Forall valid_deal deals ->
  forallb scalar_stage deals = true /\ forallb numeric_value deals = true.
Proof.
  induction 1 as [|d rest Hd _ [IH1 IH2]]; cbn [forallb]; auto.
  destruct (valid_deal_shape d Hd) as [-> ->]. auto.
Qed.

(** A model that validated binds every declared field, in order, to the
    value its validation gave. *)
Lemma validate_fields_model (R : runtime) (body : dict) (fields : list field) :
  forall model, validate_fields R fields body = ([], model) ->
  Forall2 (fun f kv => fst kv = field_name f /\ validate_field R body f = Some (snd kv))
          fields model.
Proof.
  induction fields as [|f rest IH]; cbn [validate_fields]; intros model H.
  - injection H as <-. constructor.
  - destruct (validate_fields R rest body) as [errors model'].
    destruct (validate_field R body f) as [v|] eqn:Hf; [|discriminate].
    injection H as -> <-. constructor; auto.
Qed.

Lemma validated_deal (R : runtime) (body : value) (model : dict) (oid : value) :
  validate R Deal body = inr model -> valid_deal (("_id", oid) :: model).
Proof.
  unfold validate. destruct body as [| | | | | |entries| |]; try discriminate.
  destruct (validate_fields R Deal entries) as [errors model'] eqn:E.
  destruct errors; [|discriminate]. intros H. injection H as <-.
  apply validate_fields_model in E. unfold Deal in E.
  repeat match goal with
         | H : Forall2 _ (_ :: _) _ |- _ => inversion H; subst; clear H
         | H : Forall2 _ [] _ |- _ => inversion H; subst; clear H
         end.
  repeat match goal with
         | H : fst ?kv = _ /\ _ |- _ =>
             destruct kv as [? ?]; destruct H as [? ?]; cbn [fst snd] in *; subst
         end.
  match goal with
  | H : validate_field R entries (Field "stage" _ _) = Some _ |- _ =>
      rename H into Hstage
  end.
  match goal with
  | H : validate_field R entries (required "value" _) = Some _ |- _ =>
      rename H into Hvalue
  end.
  unfold validate_field in Hstage, Hvalue.
  cbn [required field_name field_type field_default] in Hstage, Hvalue.
  split.
  - destruct (Dict.get "stage" entries) as [given|].
    + cbn [validate_type] in Hstage. destruct given; try discriminate.
      destruct (existsb (String.eqb s) deal_stages) eqn:Hs; [|discriminate].
      apply existsb_exists in Hs as (s' & Hin & Heq).
      apply String.eqb_eq in Heq as <-. injection Hstage as <-.
      exists s. split; [exact Hin|reflexivity].
    + injection Hstage as <-. exists "New". split; [now left|reflexivity].
  - destruct (Dict.get "value" entries) as [given|]; [|discriminate].
    cbn [validate_type] in Hvalue.
    destruct (as_float R given) as [f|]; [|discriminate].
    injection Hvalue as <-. exists f. reflexivity.
Qed.

Lemma create_other (R : runtime) (coll : string) (db : option server) (model : dict) :
  coll <> "deal" -> deals_valid db -> deals_valid (snd (create R coll db model)).
Proof.
  intros Hc. unfold create.
  destruct db as [[st|st e]|]; cbn [create_document snd deals_valid data]; auto.
  rewrite StoreFacts.documents_insert_one.
  destruct (String.eqb_spec "deal" coll); congruence.
Qed.

Lemma log_recipients_deals (R : runtime) (payload : SendEmailPayload)
    (addrs : list string) :
  forall db, deals_valid db -> deals_valid (snd (log_recipients R payload addrs db)).
Proof.
  induction addrs as [|addr rest IH]; intros db H; cbn [log_recipients]; auto.
  destruct db as [[st|st e]|]; cbn [create_document snd]; auto.
  apply IH. cbn [deals_valid data]. rewrite StoreFacts.documents_insert_one. exact H.
Qed.

Lemma handle_deals (R : runtime) (db : option server) (req : request) :
  deals_valid db -> deals_valid (snd (handle R db req)).
Proof.
  intros H. destruct req; cbn [handle snd]; auto; unfold with_body;
    match goal with
    | |- context [validate R ?fields ?body] =>
        destruct (validate R fields body) as [errors|model] eqn:Hval; auto
    end;
    try (apply create_other; [discriminate|exact H]).
  - unfold create_deal, create.
    destruct db as [[st|st e]|]; cbn [create_document snd deals_valid data] in *; auto.
    rewrite StoreFacts.documents_insert_one. cbn [String.eqb Ascii.eqb Bool.eqb].
    apply Forall_app. split; [exact H|]. constructor; [|constructor].
    eapply validated_deal, Hval.
  - unfold send_email.
    pose proof (log_recipients_deals R (SendEmailPayload_of model)
                  (to (SendEmailPayload_of model)) db H) as Hlog.
    destruct (log_recipients R _ _ db) as [[u|e] db']; exact Hlog.
Qed.

End DealFacts.

(** X1.  Every deal the system stores is a valid one: after any sequence of
    requests on a store whose deals are valid (an empty one, for instance)
    each deal has a stage among the six declared and a float as value, so
    its stage is no array and its value is a number. *)
Theorem stored_deals_are_valid (R : runtime) (db : option server) (reqs : list request) :
  deals_valid db ->
  deals_valid (serve R db reqs)
  /\ forall st', serve R db reqs = Some (Up st') ->
       forallb scalar_stage (documents st' "deal") = true
       /\ forallb numeric_value (documents st' "deal") = true.
Proof.
  intros H.
  assert (Hall : deals_valid (serve R db reqs)).
  { revert db H. unfold serve.
    induction reqs as [|req rest IH]; intros db H; cbn [fold_left]; auto.
    apply IH, DealFacts.handle_deals, H. }
  split; [exact Hall|].
  intros st' Hst. rewrite Hst in Hall. now apply DealFacts.valid_deals_shape.
Qed.

(** X1 on a sequence of requests from the empty store. *)
Lemma stored_deals_are_valid_witness :
  deals_valid (Some (Up Sample.empty))
  /\ deals_valid (serve Sample.runtime (Some (Up Sample.empty)) busy_day)
  /\ forall st', serve Sample.runtime (Some (Up Sample.empty)) busy_day = Some (Up st') ->
       forallb scalar_stage (documents st' "deal") = true
       /\ forallb numeric_value (documents st' "deal") = true.
Proof.
  assert (H : deals_valid (Some (Up Sample.empty))) by constructor.
  split; [exact H|].
  exact (stored_deals_are_valid Sample.runtime (Some (Up Sample.empty)) busy_day H).
Defined.

(** ** More on reshaping *)

Module ReshapeFacts.

Lemma to_str_id_nonempty (R : runtime) (doc : dict) :
  doc <> [] ->
  to_str_id R doc
  = Dict.pop "_id"
      (Dict.set "id" (VStr (py_str R (Dict.get_default "_id" VNone doc))) doc).
Proof. destruct doc; [congruence|reflexivity]. Qed.

Lemma to_str_id_id (R : runtime) (doc : dict) :
  doc <> [] ->
  Dict.get "id" (to_str_id R doc)
  = Some (VStr (py_str R (Dict.get_default "_id" VNone doc))).
Proof.
  intros H. rewrite to_str_id_nonempty by assumption.
  rewrite DictFacts.get_pop_other by discriminate.
  apply DictFacts.get_set_same.
Qed.

Lemma to_str_id_no_internal_id (R : runtime) (doc : dict) :
  Dict.get "_id" (to_str_id R doc) = None.
Proof.
  destruct doc as [|kv rest]; [reflexivity|].
  rewrite to_str_id_nonempty by discriminate. apply DictFacts.get_pop_same.
Qed.

Lemma to_str_id_shown (R : runtime) (doc : dict) : shown (VDict (to_str_id R doc)).
Proof.
  exists (to_str_id R doc). split; [reflexivity|].
  split; [apply to_str_id_no_internal_id|].
  destruct doc as [|kv rest]; [now left|right].
  eexists. apply to_str_id_id. discriminate.
Qed.

End ReshapeFacts.

(** X2.  The corners of [to_str_id]: an empty document is returned as it
    is, without an [id]; any other document gets [id = str(doc.get("_id"))],
    which is the text of [None] when it has no [_id], whatever [id] it had
    before; so reshaping a document a second time replaces its identity by
    the text of [None]. *)
Theorem to_str_id_twice_loses_the_identity (R : runtime) (doc : dict) :
  doc <> [] ->
  to_str_id R [] = []
  /\ (Dict.get "_id" doc = None ->
      Dict.get "id" (to_str_id R doc) = Some (VStr (py_str R VNone)))
  /\ Dict.get "id" (to_str_id R (to_str_id R doc)) = Some (VStr (py_str R VNone))
  /\ Dict.get "_id" (to_str_id R (to_str_id R doc)) = None.
Proof.
  intros Hdoc. split; [reflexivity|]. split; [|split].
  - intros Hnone. rewrite ReshapeFacts.to_str_id_id by assumption.
    unfold Dict.get_default. now rewrite Hnone.
  - assert (Hne : to_str_id R doc <> []).
    { intros E. pose proof (ReshapeFacts.to_str_id_id R doc Hdoc) as H.
      rewrite E in H. discriminate. }
    rewrite ReshapeFacts.to_str_id_id by assumption.
    unfold Dict.get_default.
    now rewrite ReshapeFacts.to_str_id_no_internal_id.
  - apply ReshapeFacts.to_str_id_no_internal_id.
Qed.

(** X2 on a stored deal: shown once it has its identity, shown twice it
    has "None". *)
Lemma to_str_id_twice_loses_the_identity_witness :
  stored_deal <> []
  /\ Dict.get "id" (to_str_id Sample.runtime stored_deal)
     = Some (VStr "0000000000000000000000ff")
  /\ Dict.get "id" (to_str_id Sample.runtime (to_str_id Sample.runtime stored_deal))
     = Some (VStr "None").
Proof.
  assert (H : stored_deal <> []) by discriminate.
  split; [exact H|]. split; [reflexivity|].
  exact (proj1 (proj2 (proj2 (to_str_id_twice_loses_the_identity
                                Sample.runtime stored_deal H)))).
Defined.

(** X3.  No list endpoint ever shows the internal [_id]: whatever the store
    holds and whatever the filters, every item of a list response is a
    document without [_id], and with a string [id] unless the stored
    document was empty. *)
Theorem listings_never_show_the_internal_id (R : runtime) (db : option server)
    (req : request) (body : value) :
  is_listing req = true ->
  fst (handle R db req) = Return body ->
  exists items, body = VList items /\ Forall shown items.
Proof.
  intros Hreq H.
  assert (Hlist : exists docs, listing R docs = Return body).
  { destruct req; try discriminate; cbn [handle fst] in H;
      unfold list_contacts, list_companies, list_deals, list_activities in H;
      eauto. }
  destruct Hlist as [docs Hdocs].
  apply listing_returns in Hdocs as (found & _ & ->).
  eexists. split; [reflexivity|]. clear H.
  induction found as [|d rest IH]; cbn [map]; constructor; auto.
  apply ReshapeFacts.to_str_id_shown.
Qed.

(** X3 on the three deals of the spec's example. *)
Lemma listings_never_show_the_internal_id_witness :
  is_listing (GET_deals (Some "Won")) = true
  /\ fst (handle Sample.runtime (Some (Up three_deals)) (GET_deals (Some "Won")))
     = Return (VList [VDict [ ("value", VFloat 50); ("stage", VStr "Won");
                              ("id", VStr "000000000000000000000001") ]])
  /\ exists items,
      VList [VDict [ ("value", VFloat 50); ("stage", VStr "Won");
                     ("id", VStr "000000000000000000000001") ]] = VList items
      /\ Forall shown items.
Proof.
  split; [reflexivity|]. split; [reflexivity|].
  exact (listings_never_show_the_internal_id Sample.runtime (Some (Up three_deals))
           (GET_deals (Some "Won")) _ eq_refl eq_refl).
Defined.

(** ** Creating and listing *)

Module ListFacts.

Lemma to_str_id_other (R : runtime) (doc : dict) (k : string) :
  k <> "_id" -> k <> "id" -> Dict.get k (to_str_id R doc) = Dict.get k doc.
Proof.
  intros H1 H2. destruct doc as [|kv rest]; [reflexivity|].
  rewrite ReshapeFacts.to_str_id_nonempty by discriminate.
  rewrite DictFacts.get_pop_other by assumption.
  now apply DictFacts.get_set_other.
Qed.

(** What listing a whole collection answers. *)
Lemma listing_all (R : runtime) (st : store) (coll : string) :
  listing R (get_documents (Some (Up st)) coll [] None)
  = Return (VList (map (fun d => VDict (to_str_id R d)) (documents st coll))).
Proof.
  unfold get_documents, listing. now rewrite filter_matches_all.
Qed.

Lemma created_then_listed (R : runtime) (st : store) (coll : string) (model : dict) :
  exists new_id st' doc,
    create R coll (Some (Up st)) model
    = (Return (VDict [("id", VStr new_id)]), Some (Up st'))
    /\ listing R (get_documents (Some (Up st')) coll [] None)
       = Return (VList (map (fun d => VDict (to_str_id R d)) (documents st coll)
                        ++ [VDict doc]))
    /\ Dict.get "id" doc = Some (VStr new_id)
    /\ forall k, k <> "_id" -> k <> "id" -> Dict.get k doc = Dict.get k model.
Proof.
  exists (py_str R (VObjectId (next_oid st))),
         (insert_one st coll model),
         (to_str_id R (("_id", VObjectId (next_oid st)) :: model)).
  split; [reflexivity|]. split; [|split].
  - rewrite listing_all, StoreFacts.documents_insert_one, String.eqb_refl.
    now rewrite map_app.
  - now rewrite ReshapeFacts.to_str_id_id by discriminate.
  - intros k H1 H2. rewrite to_str_id_other by assumption.
    cbn [Dict.get]. destruct (String.eqb_spec k "_id"); congruence.
Qed.

Lemma matches_filter_on (key : string) (p : option string) (q : query) (doc : dict) :
  matches (filter_on key p ++ q) doc = asks key p doc && matches q doc.
Proof.
  unfold matches, filter_on, asks. destruct p as [s|]; [|reflexivity].
  cbn [truthy]. destruct (String.eqb s ""); [reflexivity|].
  cbn [negb app forallb]. unfold satisfies. cbn [fst snd].
  destruct (Dict.get key doc); reflexivity.
Qed.

Lemma filter_same (p q : dict -> bool) (docs : list dict) :
  (forall d, p d = q d) -> filter p docs = filter q docs.
Proof.
  intros H. induction docs as [|d rest IH]; cbn [filter]; [reflexivity|].
  now rewrite H, IH.
Qed.

End ListFacts.

(** X4.  What is created is listed: after a contact, company or deal was
    created on a working store, the listing of its collection holds the
    documents it held before and one more, whose [id] is the identity the
    creation returned and whose other fields are those of the validated
    body.  Nothing is said of where in the listing the document stands. *)
Theorem created_document_is_listed (R : runtime) (st : store) (req lst : request)
    (fields : list field) (body : value) (model : dict) :
  creation req = Some (fields, body) ->
  listed_by req = Some lst ->
  validate R fields body = inr model ->
  exists new_id st' before after doc,
    fst (handle R (Some (Up st)) lst) = Return (VList before)
    /\ handle R (Some (Up st)) req
       = (Return (VDict [("id", VStr new_id)]), Some (Up st'))
    /\ fst (handle R (Some (Up st')) lst) = Return (VList after)
    /\ Permutation after (VDict doc :: before)
    /\ Dict.get "id" doc = Some (VStr new_id)
    /\ forall k, k <> "_id" -> k <> "id" -> Dict.get k doc = Dict.get k model.
Proof.
  intros Hreq Hlst Hval.
  destruct req; try discriminate; cbn [creation listed_by] in Hreq, Hlst;
    injection Hreq as <- <-; injection Hlst as <-;
    cbn [handle fst]; unfold with_body; rewrite Hval;
    unfold create_contact, create_company, create_deal,
           list_contacts, list_companies, list_deals;
    cbn [filter_on app];
    match goal with
    | |- context [create R ?coll _ model] =>
        destruct (ListFacts.created_then_listed R st coll model)
          as (new_id & st' & doc & Hcreate & Hlist & Hid & Hother)
    end;
    exists new_id, st'; do 2 eexists; exists doc;
    (split; [apply ListFacts.listing_all|]);
    (split; [exact Hcreate|]); (split; [exact Hlist|]);
    (split; [apply Permutation_sym, Permutation_cons_append|]); auto.
Qed.

(** X4 on the three deals of the spec's example and one more deal. *)
Lemma created_document_is_listed_witness :
  (creation (POST_deals upsell) = Some (Deal, upsell)
   /\ listed_by (POST_deals upsell) = Some (GET_deals None)
   /\ validate Sample.runtime Deal upsell
      = inr [ ("deal_name", VStr "Upsell"); ("value", VFloat 10);
              ("stage", VStr "Won"); ("contact_id", VNone); ("company_id", VNone);
              ("deadline", VNone); ("notes", VNone) ])
  /\ exists new_id st' before after doc,
      fst (handle Sample.runtime (Some (Up three_deals)) (GET_deals None))
      = Return (VList before)
      /\ handle Sample.runtime (Some (Up three_deals)) (POST_deals upsell)
         = (Return (VDict [("id", VStr new_id)]), Some (Up st'))
      /\ fst (handle Sample.runtime (Some (Up st')) (GET_deals None))
         = Return (VList after)
      /\ Permutation after (VDict doc :: before)
      /\ Dict.get "id" doc = Some (VStr new_id)
      /\ forall k, k <> "_id" -> k <> "id" ->
           Dict.get k doc
           = Dict.get k [ ("deal_name", VStr "Upsell"); ("value", VFloat 10);
                          ("stage", VStr "Won"); ("contact_id", VNone);
                          ("company_id", VNone); ("deadline", VNone);
                          ("notes", VNone) ].
Proof.
  split; [repeat split|].
  exact (created_document_is_listed Sample.runtime three_deals (POST_deals upsell)
           (GET_deals None) Deal upsell _ eq_refl eq_refl eq_refl).
Defined.

(** X5.  The filters of the list endpoints ask for all the parameters given
    at once, and a parameter asks that the stored field is the string or an
    array holding it: [GET /contacts] answers the contacts that meet [tag] on
    [tags], [company_id] on [company_id] and [stage] on [funnel_stage], in
    store order; [GET /deals] those that meet [stage] on [stage];
    [GET /companies] all of them. *)
Theorem listings_select_by_all_parameters (R : runtime) (st : store)
    (tag company_id stage : option string) :
  let show := map (fun d => VDict (to_str_id R d)) in
  list_contacts R (Some (Up st)) tag company_id stage
  = Return (VList (show (filter (fun d => asks "tags" tag d
                                          && asks "company_id" company_id d
                                          && asks "funnel_stage" stage d)
                                (documents st "contact"))))
  /\ list_deals R (Some (Up st)) stage
     = Return (VList (show (filter (asks "stage" stage) (documents st "deal"))))
  /\ list_companies R (Some (Up st))
     = Return (VList (show (documents st "company"))).
Proof.
  cbv zeta. unfold list_contacts, list_deals, list_companies, get_documents, listing.
  repeat split; do 3 f_equal.
  - apply ListFacts.filter_same. intros d.
    rewrite !ListFacts.matches_filter_on.
    rewrite <- (app_nil_r (filter_on "funnel_stage" stage)).
    rewrite ListFacts.matches_filter_on. cbn [matches forallb].
    now rewrite andb_true_r, andb_assoc.
  - apply ListFacts.filter_same. intros d.
    rewrite <- (app_nil_r (filter_on "stage" stage)).
    rewrite ListFacts.matches_filter_on. cbn [matches forallb].
    now rewrite andb_true_r.
  - apply filter_matches_all.
Qed.

(** X6.  [GET /activities] on a working store answers exactly the smaller
    of 200 and the number of activities that meet its two parameters. *)
Theorem list_activities_answers_min_200 (R : runtime) (st : store)
    (entity_type entity_id : option string) :
  exists items,
    list_activities R (Some (Up st)) entity_type entity_id = Return (VList items)
    /\ List.length items
       = Nat.min 200 (List.length
           (filter (fun d => asks "entity_type" entity_type d
                             && asks "entity_id" entity_id d)
                   (documents st "activity"))).
Proof.
  unfold list_activities. cbv beta iota delta [get_documents listing].
  eexists. split; [reflexivity|].
  rewrite length_map, length_firstn. do 2 f_equal.
  apply ListFacts.filter_same. intros d.
  rewrite ListFacts.matches_filter_on.
  rewrite <- (app_nil_r (filter_on "entity_id" entity_id)).
  rewrite ListFacts.matches_filter_on. cbn [matches forallb].
  now rewrite andb_true_r.
Qed.

(** ** More on sending e-mail *)

(** X7.  [POST /email/send] needs the store only for its recipients: with an
    empty [to] it answers "queued" with [sent] 0 whatever the state of the
    store, even without a handle; with at least one recipient a store that
    fails with [e] makes it end in [e], uncaught, before anything is
    written. *)
Theorem send_email_needs_the_store_for_recipients (R : runtime)
    (db : option server) (payload : SendEmailPayload) :
  (to payload = [] ->
   send_email R db payload
   = (Return (VDict [ ("status", VStr "queued");
                      ("provider", VStr (provider_or_mock payload));
                      ("sent", VInt 0) ]), db))
  /\ (to payload <> [] ->
      (forall st e, db = Some (Down st e) ->
         send_email R db payload = (Uncaught e, db))
      /\ (db = None -> send_email R db payload = (Uncaught StorageUnavailable, db))).
Proof.
  unfold send_email. split.
  - intros ->. reflexivity.
  - intros Hto. destruct (to payload) as [|addr rest]; [congruence|].
    split; [intros st e ->|intros ->]; reflexivity.
Qed.

(** X7 on a message to nobody, the storage being down. *)
Lemma send_email_needs_the_store_for_recipients_witness :
  to no_recipients = []
  /\ send_email Sample.runtime (Some (Down Sample.empty outage)) no_recipients
     = (Return (VDict [ ("status", VStr "queued"); ("provider", VStr "resend");
                        ("sent", VInt 0) ]),
        Some (Down Sample.empty outage)).
Proof.
  split; [reflexivity|].
  exact (proj1 (send_email_needs_the_store_for_recipients Sample.runtime
                  (Some (Down Sample.empty outage)) no_recipients) eq_refl).
Defined.

Lemma log_recipients_documents (R : runtime) (payload : SendEmailPayload)
    (addrs : list string) :
  forall st, exists st' new,
    log_recipients R payload addrs (Some (Up st)) = (Ok tt, Some (Up st'))
    /\ documents st' "activity" = documents st "activity" ++ new
    /\ Forall2 (fun addr doc => exists oid,
                  doc = ("_id", VObjectId oid) :: email_activity payload addr)
               addrs new.
Proof.
  induction addrs as [|addr rest IH]; intros st; cbn [log_recipients create_document].
  - exists st, []. rewrite app_nil_r. repeat split; auto.
  - destruct (IH (insert_one st "activity" (email_activity payload addr)))
      as (st' & new & -> & Hdocs & Hnew).
    exists st', ((("_id", VObjectId (next_oid st)) :: email_activity payload addr) :: new).
    split; [reflexivity|]. split.
    + rewrite Hdocs, StoreFacts.documents_insert_one.
      rewrite String.eqb_refl, <- app_assoc. reflexivity.
    + constructor; [eauto|exact Hnew].
Qed.

(** X8.  What [POST /email/send] logs agrees with what it answers: every
    activity it writes names, under [meta], the provider of the response,
    and carries the message "Email sent: " followed by the subject. *)
Theorem send_email_logs_what_it_answers (R : runtime) (st : store)
    (payload : SendEmailPayload) :
  exists st' new answer,
    send_email R (Some (Up st)) payload = (Return (VDict answer), Some (Up st'))
    /\ documents st' "activity" = documents st "activity" ++ new
    /\ Forall (fun doc =>
         Dict.get "meta" doc = Some (VDict [("provider", Dict.get_default "provider" VNone answer)])
         /\ Dict.get "message" doc = Some (VStr ("Email sent: " ++ subject payload)))
       new.
Proof.
  destruct (log_recipients_documents R payload (to payload) st)
    as (st' & new & Hlog & Hdocs & Hnew).
  exists st', new. unfold send_email. rewrite Hlog.
  eexists. split; [reflexivity|]. split; [exact Hdocs|].
  clear Hlog Hdocs. induction Hnew as [|addr doc addrs docs (oid & ->) _ IH];
    constructor; auto.
Qed.

(** ** More on the statistics *)

Module PipelineFacts.

Lemma won_is_not_lost (deal : dict) :
  stage_is "Won" deal = true -> stage_is "Lost" deal = false.
Proof.
  unfold stage_is. destruct (Dict.get "stage" deal) as [v|]; [|discriminate].
  destruct v; try discriminate. cbn [is_string].
  intros H. apply String.eqb_eq in H as ->. reflexivity.
Qed.

Lemma not_lost_splits (deals : list dict) :
  List.length (filter (fun d => negb (stage_is "Lost" d)) deals)
  = (List.length (filter (stage_is "Won") deals)
     + List.length (filter in_pipeline deals))%nat.
Proof.
  induction deals as [|d rest IH]; cbn [filter]; [reflexivity|].
  unfold in_pipeline at 1.
  destruct (stage_is "Won" d) eqn:W.
  - rewrite (won_is_not_lost d W). cbn [negb andb List.length]. now rewrite IH.
  - destruct (stage_is "Lost" d); cbn [negb andb List.length]; rewrite IH; lia.
Qed.

Lemma add_values_app (R : runtime) (pre post : list dict) :
  forall acc,
    add_values R (pre ++ post) acc
    = match add_values R pre acc with
      | Ok a => add_values R post a
      | Raise e => Raise e
      end.
Proof.
  induction pre as [|d rest IH]; intros acc; cbn [app add_values]; [reflexivity|].
  destruct (py_float R _); [apply IH|reflexivity].
Qed.

End PipelineFacts.

(** X9.  The numbers of one answer add up: on a store whose stages are not
    arrays, with a handle that counts as true, [active_deals] is
    [won_deals] plus the number of deals still in the pipeline, so a deal
    that was won is always among the active ones. *)
Theorem active_deals_is_won_plus_open (R : runtime) (st : store) (body : dict) :
  bool_of_handle R = Ok true ->
  forallb scalar_stage (documents st "deal") = true ->
  stats_summary R (Some (Up st)) = Return (VDict body) ->
  exists active won,
    Dict.get "active_deals" body = Some (VInt active)
    /\ Dict.get "won_deals" body = Some (VInt won)
    /\ active = (won + open_deals st)%Z
    /\ (0 <= won <= active)%Z.
Proof.
  intros Htrue Hstage H. rewrite stats_summary_up in H by assumption.
  destruct (add_values R _ _) as [pv|e]; [|discriminate].
  injection H as <-. cbn [Dict.get String.eqb Ascii.eqb Bool.eqb].
  do 2 eexists. split; [reflexivity|]. split; [reflexivity|].
  rewrite StatsFacts.matches_not_lost, StatsFacts.matches_won by assumption.
  unfold open_deals, count. rewrite PipelineFacts.not_lost_splits. lia.
Qed.

(** X9 on the three deals of the spec's example: 3 = 1 + 2. *)
Lemma active_deals_is_won_plus_open_witness :
  (bool_of_handle Sample.runtime = Ok true
   /\ forallb scalar_stage (documents three_deals "deal") = true
   /\ open_deals three_deals = 2%Z)
  /\ exists active won,
      Dict.get "active_deals"
        [ ("total_contacts", VInt 0); ("active_deals", VInt 3);
          ("pipeline_value", VFloat 125); ("won_deals", VInt 1);
          ("created_last_30_days", VInt 0) ] = Some (VInt active)
      /\ Dict.get "won_deals"
           [ ("total_contacts", VInt 0); ("active_deals", VInt 3);
             ("pipeline_value", VFloat 125); ("won_deals", VInt 1);
             ("created_last_30_days", VInt 0) ] = Some (VInt won)
      /\ active = (won + open_deals three_deals)%Z
      /\ (0 <= won <= active)%Z.
Proof.
  split; [repeat split|].
  exact (active_deals_is_won_plus_open Sample.runtime three_deals _
           eq_refl eq_refl eq_refl).
Defined.

(** X10.  A value that [float] refuses fails the whole summary: when the
    first pipeline deal whose value is not a number holds a non-empty string
    that [float] raises [e] on, [GET /stats/summary] answers 500 with the
    text of [e] and no number at all, whatever the deals after it hold. *)
Theorem a_value_float_refuses_fails_the_summary (R : runtime) (st : store)
    (before after : list dict) (deal : dict) (s : string) (e : exn) :
  bool_of_handle R = Ok true ->
  forallb scalar_stage (documents st "deal") = true ->
  filter in_pipeline (documents st "deal") = before ++ deal :: after ->
  forallb numeric_value before = true ->
  Dict.get "value" deal = Some (VStr s) -> s <> "" ->
  float_of_other R (VStr s) = Raise e ->
  stats_summary R (Some (Up st)) = HTTPException 500 (exn_text e).
Proof.
  intros Htrue Hstage Hsplit Hbefore Hvalue Hs He.
  rewrite stats_summary_up by assumption.
  rewrite StatsFacts.matches_in_pipeline by assumption.
  rewrite Hsplit, PipelineFacts.add_values_app.
  destruct (StatsFacts.add_values_total R before Hbefore 0%float 0%float
              (FloatFacts.same_number_refl _)) as (acc & -> & _).
  cbn [add_values]. unfold Dict.get_default, py_or. rewrite Hvalue.
  cbn [truthy]. destruct (String.eqb_spec s ""); [congruence|].
  cbn [negb py_float]. now rewrite He.
Qed.

(** X10 on deals of which the second holds the value "a lot". *)
Lemma a_value_float_refuses_fails_the_summary_witness :
  (bool_of_handle Sample.runtime = Ok true
   /\ forallb scalar_stage (documents bad_value_deals "deal") = true
   /\ filter in_pipeline (documents bad_value_deals "deal")
      = [[("_id", VObjectId 0); ("value", VFloat 100); ("stage", VStr "New")]]
        ++ [("_id", VObjectId 1); ("value", VStr "a lot"); ("stage", VStr "Contacted")]
        :: [[("_id", VObjectId 2); ("value", VFloat 25); ("stage", VStr "Negotiation")]])
  /\ stats_summary Sample.runtime (Some (Up bad_value_deals))
     = HTTPException 500 "could not convert string to float: 'a lot'".
Proof.
  split; [repeat split|].
  assert (Hs : "a lot" <> "") by discriminate.
  exact (a_value_float_refuses_fails_the_summary Sample.runtime bad_value_deals
           [[("_id", VObjectId 0); ("value", VFloat 100); ("stage", VStr "New")]]
           [[("_id", VObjectId 2); ("value", VFloat 25); ("stage", VStr "Negotiation")]]
           [("_id", VObjectId 1); ("value", VStr "a lot"); ("stage", VStr "Contacted")]
           "a lot" (Exn "ValueError" "could not convert string to float: 'a lot'")
           eq_refl eq_refl eq_refl eq_refl eq_refl Hs eq_refl).
Defined.

(** ** The diagnostic *)

(** X11.  [GET /test] always answers, with the same six keys.  It reports
    "Connected" exactly when there is a handle whose name can be read, and
    lists at most 20 collections.  When the storage fails it puts the first
    80 characters of the error text into its [database] line instead of
    failing itself, and when reading the name of the handle fails, the first
    120 characters of that error text: characters, not bytes. *)
Theorem test_database_always_answers (R : runtime) (db : option server) :
  exists body,
    test_database R db = Return (VDict body)
    /\ map fst body = diagnostic_keys
    /\ Dict.get "backend" body = Some (VStr "✅ Running")
    /\ (Dict.get "connection_status" body = Some (VStr "Connected")
        <-> exists srv database_name,
              db = Some srv /\ name_of_handle R (name (data srv)) = Ok database_name)
    /\ (exists names,
         Dict.get "collections" body = Some (VList names)
         /\ (List.length names <= 20)%nat)
    /\ (forall st e database_name,
         db = Some (Down st e) ->
         name_of_handle R (name st) = Ok database_name ->
         exists text,
           Dict.get "database" body = Some (VStr ("⚠️ Connected but Error: " ++ text))
           /\ text = slice_to 80 (exn_text e)
           /\ (char_length text <= 80)%nat
           /\ prefix text (exn_text e) = true
           /\ ((char_length (exn_text e) <= 80)%nat \/ text <> exn_text e))
    /\ (forall srv e,
         db = Some srv ->
         name_of_handle R (name (data srv)) = Raise e ->
         exists text,
           Dict.get "database" body = Some (VStr ("❌ Error: " ++ text))
           /\ text = slice_to 120 (exn_text e)
           /\ (char_length text <= 120)%nat
           /\ prefix text (exn_text e) = true).
Proof.
  assert (Hcut : forall n s,
            (char_length s <= n)%nat \/ slice_to n s <> s).
  { intros n s. destruct (Nat.le_gt_cases (char_length s) n) as [Hle|Hgt]; [now left|].
    right. intros Heq. now apply (TextFacts.truncation_differs n s Hgt). }
  destruct db as [srv|].
  2:{ unfold test_database. eexists. split; [reflexivity|].
      cbn [Dict.set Dict.get String.eqb Ascii.eqb Bool.eqb map fst].
      split; [reflexivity|]. split; [reflexivity|].
      split; [split; [discriminate|intros (srv & n & H & _); discriminate]|].
      split; [exists []; split; [reflexivity|cbn; lia]|].
      split; intros; discriminate. }
  unfold test_database.
  destruct (name_of_handle R (name (data srv))) as [database_name|raised] eqn:Hname.
  - destruct srv as [st|st e]; eexists; (split; [reflexivity|]);
      cbn [Dict.set Dict.get String.eqb Ascii.eqb Bool.eqb map fst];
      (split; [reflexivity|]); (split; [reflexivity|]);
      (split; [split; [intros _; eauto|reflexivity]|]).
    + split; [eexists; split; [reflexivity|]; rewrite length_map; apply firstn_le_length|].
      split; intros; [discriminate|].
      match goal with H : Some _ = Some _ |- _ => injection H as <- end. congruence.
    + split; [exists []; split; [reflexivity|cbn; lia]|].
      split.
      * intros st' e' n' H _. injection H as <- <-.
        exists (slice_to 80 (exn_text e)). split; [reflexivity|]. split; [reflexivity|].
        split; [apply TextFacts.slice_to_length|].
        split; [apply TextFacts.slice_to_prefix|apply Hcut].
      * intros srv' e' H. injection H as <-. congruence.
  - eexists. split; [reflexivity|].
    cbn [Dict.set Dict.get String.eqb Ascii.eqb Bool.eqb map fst].
    split; [reflexivity|]. split; [reflexivity|].
    split; [split; [discriminate|intros (srv' & n & H & Hn); injection H as <-; congruence]|].
    split; [exists []; split; [reflexivity|cbn; lia]|].
    split.
    + intros st e n H. injection H as ->. cbn [data] in Hname. congruence.
    + intros srv' e H. injection H as <-. rewrite Hname. intros [= <-].
      exists (slice_to 120 (exn_text raised)). split; [reflexivity|]. split; [reflexivity|].
      split; [apply TextFacts.slice_to_length|apply TextFacts.slice_to_prefix].
Qed.

(** X11 on an error text of a hundred accented letters: the diagnostic
    keeps eighty of them, which are a hundred and sixty bytes; and when it is
    reading the name of the handle that fails with this text, all hundred
    are kept and the connection is not reported. *)
Lemma test_database_always_answers_witness :
  (exists body,
     test_database Sample.runtime (Some (Down Sample.empty accented))
     = Return (VDict body)
     /\ Dict.get "database" body
        = Some (VStr ("⚠️ Connected but Error: " ++ String.concat "" (repeat "é" 80)))
     /\ char_length (String.concat "" (repeat "é" 80)) = 80%nat
     /\ String.length (String.concat "" (repeat "é" 80)) = 160%nat)
  /\ (exists body,
       test_database (with_nameless_handle accented) (Some (Up Sample.empty))
       = Return (VDict body)
       /\ Dict.get "database" body = Some (VStr ("❌ Error: " ++ exn_text accented))
       /\ Dict.get "connection_status" body = Some (VStr "Not Connected")).
Proof.
  split.
  - destruct (test_database_always_answers Sample.runtime
                (Some (Down Sample.empty accented)))
      as (body & Hbody & _ & _ & _ & _ & Hdown & _).
    destruct (Hdown Sample.empty accented "crm" eq_refl eq_refl)
      as (text & Hdatabase & Htext & _).
    exists body. split; [exact Hbody|]. split; [|split; reflexivity].
    rewrite Hdatabase, Htext. reflexivity.
  - destruct (test_database_always_answers (with_nameless_handle accented)
                (Some (Up Sample.empty)))
      as (body & Hbody & _ & _ & _ & _ & _ & Hname).
    destruct (Hname (Up Sample.empty) accented eq_refl eq_refl)
      as (text & Hdatabase & Htext & _).
    exists body. split; [exact Hbody|]. split.
    + rewrite Hdatabase, Htext. reflexivity.
    + vm_compute in Hbody. injection Hbody as <-. reflexivity.
Defined.

(** ** More on validation *)

Module ModelFacts.

Lemma validate_fields_accepts (R : runtime) (body : dict) (fields : list field) :
  (forall f, In f fields -> validate_field R body f <> None) ->
  exists model,
    validate_fields R fields body = ([], model)
    /\ map fst model = map field_name fields
    /\ (NoDup (map field_name fields) ->
        forall f, In f fields ->
          Dict.get (field_name f) model = validate_field R body f).
Proof.
  induction fields as [|g rest IH]; intros Hok.
  - exists []. repeat split. intros _ f [].
  - destruct IH as (model & Hval & Hkeys & Hget).
    { intros f Hf. apply Hok. now right. }
    cbn [validate_fields]. rewrite Hval.
    destruct (validate_field R body g) as [v|] eqn:Hg.
    2:{ destruct (Hok g (or_introl eq_refl)). exact Hg. }
    exists ((field_name g, v) :: model).
    split; [reflexivity|]. split; [cbn [map fst]; now rewrite Hkeys|].
    intros Hnodup f Hf. cbn [map] in Hnodup. inversion Hnodup as [|x l Hnotin Hrest]; subst.
    cbn [Dict.get]. destruct Hf as [<-|Hf].
    + now rewrite String.eqb_refl.
    + destruct (String.eqb_spec (field_name f) (field_name g)) as [E|_].
      * destruct Hnotin. rewrite <- E. now apply in_map.
      * now apply Hget.
Qed.

End ModelFacts.

(** X13.  A body none of whose declared fields is refused is accepted, and
    the model the handler gets holds exactly the declared fields, in the
    order of the class: a field the body gives holds its validated value, a
    field the body leaves out holds its default, and whatever else the body
    holds is dropped. *)
Theorem a_valid_body_gives_the_declared_fields (R : runtime)
    (fields : list field) (body : dict) :
  NoDup (map field_name fields) ->
  (forall f, In f fields -> validate_field R body f <> None) ->
  exists model,
    validate R fields (VDict body) = inr model
    /\ map fst model = map field_name fields
    /\ forall f, In f fields ->
         Dict.get (field_name f) model
         = match Dict.get (field_name f) body with
           | Some v => validate_type R (field_type f) v
           | None => field_default f
           end.
Proof.
  intros Hnodup Hok.
  destruct (ModelFacts.validate_fields_accepts R body fields Hok)
    as (model & Hval & Hkeys & Hget).
  exists model. unfold validate. rewrite Hval.
  split; [reflexivity|]. split; [exact Hkeys|].
  intros f Hf. exact (Hget Hnodup f Hf).
Qed.

(** X5 on three contacts: the one tagged "vip" whose stage is "Won". *)
Lemma listings_select_by_all_parameters_witness :
  list_contacts Sample.runtime (Some (Up tagged_contacts)) (Some "vip") None (Some "Won")
  = Return (VList [VDict [ ("first_name", VStr "Alan"); ("tags", VList [VStr "vip"]);
                           ("company_id", VStr "c2"); ("funnel_stage", VStr "Won");
                           ("id", VStr "000000000000000000000001") ]]).
Proof.
  exact (proj1 (listings_select_by_all_parameters Sample.runtime tagged_contacts
                  (Some "vip") None (Some "Won"))).
Defined.

(** X13 on a deal without a stage and with a key no field declares: the
    stage is "New" and the key is gone. *)
Lemma a_valid_body_gives_the_declared_fields_witness :
  NoDup (map field_name Deal)
  /\ validate Sample.runtime Deal (VDict deal_without_stage)
     = inr [ ("deal_name", VStr "Renewal"); ("value", VFloat 100);
             ("stage", VStr "New"); ("contact_id", VNone); ("company_id", VNone);
             ("deadline", VNone); ("notes", VNone) ]
  /\ exists model,
      validate Sample.runtime Deal (VDict deal_without_stage) = inr model
      /\ map fst model = map field_name Deal
      /\ forall f, In f Deal ->
           Dict.get (field_name f) model
           = match Dict.get (field_name f) deal_without_stage with
             | Some v => validate_type Sample.runtime (field_type f) v
             | None => field_default f
             end.
Proof.
  assert (Hnodup : NoDup (map field_name Deal)).
  { cbn. repeat (constructor; [cbn; intuition discriminate|]). constructor. }
  assert (Hok : forall f, In f Deal ->
                  validate_field Sample.runtime deal_without_stage f <> None).
  { intros f Hf. cbn in Hf.
    repeat (destruct Hf as [<-|Hf]; [discriminate|]). contradiction. }
  split; [exact Hnodup|]. split; [reflexivity|].
  exact (a_valid_body_gives_the_declared_fields Sample.runtime Deal
           deal_without_stage Hnodup Hok).
Defined.

(** ** Creating a deal and the statistics *)

Module ComposeFacts.



End ComposeFacts.



(** ** More on the diagnostic *)

(** X15.  [GET /test] calls the database URL set only when the variable
    [DATABASE_URL] holds a non-empty text: with a handle, an unset and an
    empty variable are both reported "Not Set"; without a handle nothing is
    reported about it. *)
Theorem test_database_reports_the_url (R : runtime) (db : option server) :
  exists body,
    test_database R db = Return (VDict body)
    /\ Dict.get "database_url" body
       = Some match db with
              | None => VNone
              | Some _ =>
                  match getenv R "DATABASE_URL" with
                  | None => VStr "❌ Not Set"
                  | Some url =>
                      if String.eqb url "" then VStr "❌ Not Set" else VStr "✅ Set"
                  end
              end.
Proof.
  destruct db as [[st|st e]|]; unfold test_database;
    try destruct (name_of_handle R _) as [database_name|raised];
    eexists; (split; [reflexivity|]);
    cbn [Dict.set Dict.get String.eqb Ascii.eqb Bool.eqb];
    try reflexivity;
    destruct (getenv R "DATABASE_URL") as [url|]; cbn [truthy]; try reflexivity;
    destruct (String.eqb url ""); reflexivity.
Qed.

(** X15 with the variable set to the empty text. *)
Lemma test_database_reports_the_url_witness :
  exists body,
    test_database (with_database_url "") (Some (Up Sample.empty)) = Return (VDict body)
    /\ Dict.get "database_url" body = Some (VStr "❌ Not Set").
Proof.
  exact (test_database_reports_the_url (with_database_url "") (Some (Up Sample.empty))).
Defined.

(** ** What the statistics read *)

Module FrameFacts.

Lemma filter_by_stage (g : option value -> bool) (deals : list dict) :
  List.length (filter (fun d => g (Dict.get "stage" d)) deals)
  = List.length (filter g (map (Dict.get "stage") deals)).
Proof.
  induction deals as [|d rest IH]; cbn [filter map]; [reflexivity|].
  destruct (g (Dict.get "stage" d)); cbn [List.length]; now rewrite IH.
Qed.

Lemma count_by_stage (s : string) (deals deals' : list dict) :
  map (Dict.get "stage") deals = map (Dict.get "stage") deals' ->
  List.length (filter (stage_is s) deals) = List.length (filter (stage_is s) deals').
Proof.
  intros H.
  pose (g := fun o : option value =>
               match o with Some v => is_string s v | None => false end).
  change (stage_is s) with (fun d => g (Dict.get "stage" d)).
  now rewrite !filter_by_stage, H.
Qed.

Lemma count_not_by_stage (s : string) (deals deals' : list dict) :
  map (Dict.get "stage") deals = map (Dict.get "stage") deals' ->
  List.length (filter (fun d => negb (stage_is s d)) deals)
  = List.length (filter (fun d => negb (stage_is s d)) deals').
Proof.
  intros H.
  pose (g := fun o : option value =>
               negb match o with Some v => is_string s v | None => false end).
  change (fun d => negb (stage_is s d)) with (fun d => g (Dict.get "stage" d)).
  now rewrite !filter_by_stage, H.
Qed.

Lemma add_values_by_value (R : runtime) (deals : list dict) :
  forall deals' acc,
    map (Dict.get "value") deals = map (Dict.get "value") deals' ->
    add_values R deals acc = add_values R deals' acc.
Proof.
  induction deals as [|d rest IH]; intros [|d' rest'] acc H;
    try discriminate; [reflexivity|].
  cbn [map] in H. injection H as Hd Hrest.
  cbn [add_values]. unfold Dict.get_default. rewrite Hd.
  destruct (py_float R _); [now apply IH|reflexivity].
Qed.

End FrameFacts.

(** X16.  The summary reads the number of contacts, the stages of the deals
    and the values of the pipeline deals, and nothing else: two stores that
    agree on these get the same answer, whatever the names, the identities
    and the other fields of their documents, and whatever the values of the
    deals that are won or lost. *)
Theorem the_summary_reads_stages_and_open_values (R : runtime) (st st' : store) :
  bool_of_handle R = Ok true ->
  forallb scalar_stage (documents st "deal") = true ->
  forallb scalar_stage (documents st' "deal") = true ->
  List.length (documents st "contact") = List.length (documents st' "contact") ->
  map (Dict.get "stage") (documents st "deal")
  = map (Dict.get "stage") (documents st' "deal") ->
  map (Dict.get "value") (filter in_pipeline (documents st "deal"))
  = map (Dict.get "value") (filter in_pipeline (documents st' "deal")) ->
  stats_summary R (Some (Up st)) = stats_summary R (Some (Up st')).
Proof.
  intros Htrue Hs Hs' Hcontacts Hstages Hopen.
  rewrite !stats_summary_up by assumption.
  rewrite !StatsFacts.matches_in_pipeline, !StatsFacts.matches_not_lost,
    !StatsFacts.matches_won by assumption.
  rewrite (FrameFacts.add_values_by_value R _ _ _ Hopen), Hcontacts.
  rewrite (FrameFacts.count_by_stage "Won" _ _ Hstages).
  rewrite (FrameFacts.count_not_by_stage "Lost" _ _ Hstages).
  reflexivity.
Qed.

(** X16 on the deals of the spec's example and the same deals under other
    identities, the won one holding a value that is no number. *)
Lemma the_summary_reads_stages_and_open_values_witness :
  (bool_of_handle Sample.runtime = Ok true
   /\ forallb scalar_stage (documents three_deals "deal") = true
   /\ forallb scalar_stage (documents three_other_deals "deal") = true)
  /\ stats_summary Sample.runtime (Some (Up three_other_deals))
     = Return (VDict [ ("total_contacts", VInt 0); ("active_deals", VInt 3);
                       ("pipeline_value", VFloat 125); ("won_deals", VInt 1);
                       ("created_last_30_days", VInt 0) ])
  /\ stats_summary Sample.runtime (Some (Up three_deals))
     = stats_summary Sample.runtime (Some (Up three_other_deals)).
Proof.
  split; [repeat split|]. split; [reflexivity|].
  exact (the_summary_reads_stages_and_open_values Sample.runtime three_deals
           three_other_deals eq_refl eq_refl eq_refl eq_refl eq_refl eq_refl).
Defined.
